(** * Climatology-grid ETL script: shallow embedding and verified properties

    Embedding of [copy_esrigrid_to_geotiff_rename_and_clip_w_Arguments.py].
    The script is glue around arcpy and boto3; what is embedded here is the
    logic that is the script's own: the classifier [parse_input_files], the
    product-name derivation and region-title normalisation of
    [process_files_in_ascdict], its zip packaging loop, [upload_file] and
    [create_json_file].

    Conventions.
    - Python [str] is [string]; the [str] methods the script calls are
      defined in [Module Py], one function per method.
    - [os.path] is platform dependent, so it is an interface: the class
      [os.path].  Everything is stated for an arbitrary flavour; the
      instance [posixpath.flavour] follows CPython's [posixpath.py] and
      [genericpath.py] and is the one the examples run on.
    - Exceptions are values of [exn]; a computation that may raise returns
      [result A].  [except Exception] catches exactly the [exn] for which
      [is_Exception] holds.
    - The module-level dictionary [ascfile_dict] is threaded explicitly
      through [parse_input_files]: the function takes the dictionary as it is
      before the call and returns it as it is after the call (the returned
      object is that same dictionary).
    - arcpy, the clock, the file system and the S3 client are inputs. *)

From Stdlib Require Import Ascii String ZArith Lia.
From stdpp Require Import gmap strings list pretty.

Local Open Scope Z_scope.
#[local] Set Warnings "-clear-no-such-hyp".

(** ** Exceptions and results *)

Inductive exn : Type :=
  | KeyError (key : string)
  | IndexError
  | NameError (name : string)
  | ImportError (name : string)
  | OSError (msg : string)
  | ClientError (msg : string)
  | S3UploadFailedError (msg : string)
  | KeyboardInterrupt
  | SystemExit.

(** [isinstance(e, Exception)]: everything but the two [BaseException]-only
    classes. *)
Definition is_Exception (e : exn) : bool :=
  match e with
  | KeyboardInterrupt | SystemExit => false
  | _ => true
  end.

Inductive result (A : Type) : Type :=
  | Ok (a : A)
  | Raise (e : exn).
Arguments Ok {A} a.
Arguments Raise {A} e.

#[global] Instance result_ret : MRet result := λ A a, Ok a.
#[global] Instance result_bind : MBind result := λ A B f m,
  match m with
  | Ok a => f a
  | Raise e => Raise e
  end.

#[global] Instance exn_eq_dec : EqDecision exn.
Proof. solve_decision. Defined.

(** ** Python built-ins used by the script *)

Module Py.

(** [s[n:]] and [s[:n]] for [0 <= n]. *)
Fixpoint drop (n : nat) (s : string) : string :=
  match n, s with
  | O, _ => s
  | S n', String _ s' => drop n' s'
  | S _, "" => ""
  end.

Fixpoint take (n : nat) (s : string) : string :=
  match n, s with
  | O, _ => ""
  | S n', String c s' => String c (take n' s')
  | S _, "" => ""
  end.

(** [s.startswith(p)] *)
Definition startswith (s p : string) : bool := String.prefix p s.

(** [s.endswith(suffix)]: some tail of [s] is [suffix]. *)
Fixpoint endswith (s suffix : string) : bool :=
  if String.eqb s suffix then true
  else match s with
       | "" => false
       | String _ s' => endswith s' suffix
       end.

(** [s.split(sep)] for a non-empty [sep]: scan left to right, cut at every
    occurrence of [sep], occurrences do not overlap.  [skip] counts the
    characters of a matched separator still to be passed over. *)
Fixpoint split_from (sep : string) (skip : nat) (s : string) : list string :=
  match s with
  | "" => [""]
  | String c s' =>
      match skip with
      | S k => split_from sep k s'
      | O =>
          if String.prefix sep s
          then "" :: split_from sep (Nat.pred (String.length sep)) s'
          else match split_from sep O s' with
               | w :: ws => String c w :: ws
               | [] => [String c ""]
               end
      end
  end.

Definition split (s sep : string) : list string := split_from sep O s.

(** [l[i]] with Python's negative indices; [IndexError] out of range. *)
Definition getitem {A} (l : list A) (i : Z) : result A :=
  let n := Z.of_nat (length l) in
  let j := if i <? 0 then i + n else i in
  if (j <? 0) || (n <=? j) then Raise IndexError
  else match l !! Z.to_nat j with
       | Some x => Ok x
       | None => Raise IndexError
       end.

(** [c in chars] *)
Fixpoint contains_char (chars : string) (c : ascii) : bool :=
  match chars with
  | "" => false
  | String a chars' => Ascii.eqb a c || contains_char chars' c
  end.

(** [s.lstrip(chars)], [s.rstrip(chars)], [s.strip(chars)] *)
Fixpoint lstrip (s chars : string) : string :=
  match s with
  | "" => ""
  | String c s' => if contains_char chars c then lstrip s' chars else s
  end.

Fixpoint rstrip (s chars : string) : string :=
  match s with
  | "" => ""
  | String c s' =>
      match rstrip s' chars with
      | "" => if contains_char chars c then "" else String c ""
      | r => String c r
      end
  end.

Definition strip (s chars : string) : string := rstrip (lstrip s chars) chars.

(** [s.rfind(c)] for a one-character [c]: highest index, or -1. *)
Fixpoint rfind_from (i : Z) (s : string) (c : ascii) : Z :=
  match s with
  | "" => -1
  | String a s' =>
      let r := rfind_from (i + 1) s' c in
      if 0 <=? r then r else if Ascii.eqb a c then i else -1
  end.

Definition rfind (s : string) (c : ascii) : Z := rfind_from 0 s c.

(** ["".join(f(ch) for ch in s)] with a per-character [f]. *)
Fixpoint map_chars (f : ascii → ascii) (s : string) : string :=
  match s with
  | "" => ""
  | String c s' => String (f c) (map_chars f s')
  end.

(** Truthiness of an optional string argument: [None] and [""] are falsy. *)
Definition truthy (o : option string) : bool :=
  match o with
  | Some (String _ _) => true
  | _ => false
  end.

End Py.

(** ** os.path *)

Module os.

(** The functions of [os.path] the script calls. *)
Class path : Type := {
  basename : string → string;
  dirname : string → string;
  split : string → string * string;
  splitext : string → string * string;
  join : string → string → string;
  isabs : string → bool
}.

End os.

Module posixpath.

Definition sep : ascii := "/"%char.

(** [basename(p)]: [i = p.rfind('/') + 1; return p[i:]] *)
Definition basename (p : string) : string :=
  let i := Py.rfind p sep + 1 in
  Py.drop (Z.to_nat i) p.

(** [split(p)] *)
Definition all_sep (s : string) : bool :=
  String.eqb (Py.lstrip s "/") "".

Definition split (p : string) : string * string :=
  let i := Z.to_nat (Py.rfind p sep + 1) in
  let head := Py.take i p in
  let tail := Py.drop i p in
  let head := if negb (String.eqb head "") && negb (all_sep head)
              then Py.rstrip head "/" else head in
  (head, tail).

Definition dirname (p : string) : string := fst (split p).

(** [join(a, b)] *)
Definition join (a b : string) : string :=
  if Py.startswith b "/" then b
  else if String.eqb a "" || Py.endswith a "/" then a +:+ b
  else a +:+ "/" +:+ b.

(** [genericpath._splitext(p, '/', None, '.')]: the loop looks for a
    character other than '.' between the last separator and the last dot. *)
Fixpoint has_non_dot (p : string) (from : nat) (count : nat) : bool :=
  match count with
  | O => false
  | S k =>
      if negb (String.eqb (Py.take 1 (Py.drop from p)) ".") then true
      else has_non_dot p (S from) k
  end.

Definition splitext (p : string) : string * string :=
  let sepIndex := Py.rfind p sep in
  let dotIndex := Py.rfind p "."%char in
  if (sepIndex <? dotIndex)
     && has_non_dot p (Z.to_nat (sepIndex + 1)) (Z.to_nat (dotIndex - (sepIndex + 1)))
  then (Py.take (Z.to_nat dotIndex) p, Py.drop (Z.to_nat dotIndex) p)
  else (p, "").

(** [isabs(p)] *)
Definition isabs (p : string) : bool := Py.startswith p "/".

#[export] Instance flavour : os.path := {|
  os.basename := basename;
  os.dirname := dirname;
  os.split := split;
  os.splitext := splitext;
  os.join := join;
  os.isabs := isabs
|}.

End posixpath.
Export (hints) posixpath.

(** ** Module-level constants and lookup tables *)

Definition COMPANY_BUCKET_DATA_HUB : string := "COMPANY-data-hub".
Definition PREFIX : string := "climatology-grids".

Definition OUTPUT_FOLDER_CONVERTED : string := "D:\Temp\climate_raster_grids_export\converted".
Definition OUTPUT_FOLDER_REGIONS : string := "D:\Temp\climate_raster_grids_export\regions_grids".
Definition OUTPUT_FOLDER_ZIPPED : string := "D:\Temp\climate_raster_grids_export\regions_grids\zipped".

Definition lookup_month_and_season_name : gmap string string :=
  list_to_map
    [ ("monthly1", "January"); ("monthly2", "February"); ("monthly3", "March");
      ("monthly4", "April"); ("monthly5", "May"); ("monthly6", "June");
      ("monthly7", "July"); ("monthly8", "August"); ("monthly9", "September");
      ("monthly10", "October"); ("monthly11", "November"); ("monthly12", "December");
      ("seasonal1", "Summer"); ("seasonal2", "Autumn"); ("seasonal3", "Winter");
      ("seasonal4", "Spring"); ("annual", "Annual") ].

Definition lookup_dict_parameter : gmap string string :=
  list_to_map
    [ ("00", "Total-Rainfall"); ("01", "Wet-Days-GT-1mm");
      ("02", "Mean-Air-Temperature");
      ("03", "Mean-Daily-Maximum-Air-Temperature");
      ("04", "Mean-Daily-Minimum-Air-Temperature");
      ("09", "Total-Sunshine"); ("11", "Mean-Earth-Temperature-At-10cm");
      ("17", "Mean-Daily-Global-Irradiance"); ("23", "Screen-Frost-Days");
      ("33", "Mean-Daily-Wind-Speed-At-10m"); ("34", "Total-Penman-PET");
      ("37", "Total-Growing-Degree-Days-GDD-base-5degC");
      ("38", "Total-Growing-Degree-Days-GDD-base-10degC");
      ("64", "Mean-9AM-RH");
      ("68", "Total-Heating-Degree-Days-HDD-base-18degC");
      ("74", "Days-Of-Soil-Moisture-Deficit") ].

Definition lookup_dict_region : gmap string string :=
  list_to_map
    [ ("01", "Northland"); ("02", "Auckland"); ("03", "Waikato");
      ("04", "Bay-Of-Plenty"); ("05", "Gisborne"); ("06", "Hawkes-Bay");
      ("07", "Taranaki"); ("08", "Manawatu-Whanganui"); ("09", "Wellington");
      ("12", "West-Coast"); ("13", "Canterbury"); ("14", "Otago");
      ("15", "Southland"); ("16", "Tasman"); ("17", "Nelson");
      ("18", "Marlborough"); ("99", "Chatham-Islands") ].

(** [table[key]]: [KeyError] when the key is absent. *)
Definition subscript (table : gmap string string) (key : string) : result string :=
  match table !! key with
  | Some v => Ok v
  | None => Raise (KeyError key)
  end.

(** ** Grid file classifier: [parse_input_files] *)

(** A directory as [os.walk] reads it: the names of its plain files and its
    sub-directories, both in the order the directory scan lists them. *)
#[warnings="-register-all"]
Inductive fs_tree : Type :=
  | Folder (files : list string) (dirs : list (string * fs_tree)).

(** [os.walk(top)], top-down: the directory itself, then each sub-directory
    in turn under the path [join(top, name)]. *)
Fixpoint os_walk `{os.path} (top : string) (t : fs_tree)
  : list (string * list string * list string) :=
  match t with
  | Folder files dirs =>
      (top, dirs.*1, files) ::
      (fix walk_dirs (ds : list (string * fs_tree)) :=
         match ds with
         | [] => []
         | (d, sub) :: ds' => os_walk (os.join top d) sub ++ walk_dirs ds'
         end) dirs
  end.

(** The dictionary [ascfile_dict]: stem -> list of paths.  A Python [dict]
    keeps its keys in insertion order and [process_files_in_ascdict]
    iterates over it, so the embedding is an insertion-ordered association
    list. *)
Definition dict : Type := list (string * list string).

(** [ascfile_dict = {}] at module level. *)
Definition ascfile_dict_init : dict := [].

(** [k in d] *)
Definition dict_contains (d : dict) (k : string) : bool :=
  bool_decide (k ∈ d.*1).

(** [d[k].append(x)] for a key that is present. *)
Fixpoint dict_append (d : dict) (k : string) (x : string) : dict :=
  match d with
  | [] => []
  | (k', l) :: d' =>
      if decide (k' = k) then (k', l ++ [x]) :: d'
      else (k', l) :: dict_append d' k x
  end.

(** [d[k] = v] for a key that is absent: a new last entry. *)
Definition dict_set_new (d : dict) (k : string) (v : list string) : dict :=
  d ++ [(k, v)].

(** [d[k]] as an option. *)
Fixpoint dict_get (d : dict) (k : string) : option (list string) :=
  match d with
  | [] => None
  | (k', l) :: d' => if decide (k' = k) then Some l else dict_get d' k
  end.

(** Body of the inner loop of [parse_input_files], for one [file] of the
    directory [root]. *)
Definition record_file `{os.path} (root file : string) (d : dict) : dict :=
  if Py.endswith file ".asc" then
    let '(base_name, ext) := os.splitext file in
    if dict_contains d base_name
    then dict_append d base_name (os.join root file)
    else dict_set_new d base_name [os.join root file]
  else d.

(** [parse_input_files(input_location)], run on the directory tree [fs]
    found at [input_location], with [ascfile_dict] being [d] before the
    call.  The result is [ascfile_dict] after the call, which is also the
    object returned.  (The three [os.makedirs] calls and the log messages
    do not touch the dictionary.) *)
Definition parse_input_files `{os.path} (fs : fs_tree) (input_location : string) (d : dict) : dict :=
  foldl (λ d '(root, dirs, files),
           foldl (λ d file, record_file root file d) d files)
        d (os_walk input_location fs).

(** ** Naming: [process_files_in_ascdict], the statements between
    [parts = base_name.split("_")] and the f-string [new_file_name] *)

Record names : Type := {
  parameter_code : string;
  month_and_season : string;
  new_file_name : string
}.

Definition derive_names (base_name : string) : result names :=
  let parts := Py.split base_name "_" in
  last ← Py.getitem parts (-1);
  let last_name := Py.split last "." in
  parameter_code ← Py.getitem parts 1;
  token ← Py.getitem parts (-1);
  month_and_season ← subscript lookup_month_and_season_name token;
  parameter_name ← subscript lookup_dict_parameter parameter_code;
  segment4 ← Py.getitem parts 4;
  mret {| parameter_code := parameter_code;
          month_and_season := month_and_season;
          new_file_name :=
            parameter_name +:+ "_" +:+ segment4 +:+ "_1991-2020_"
              +:+ month_and_season |}.

(** ** Region rows: the body of the cursor loop *)

(** [region_title = row[1].split(" Region")[0]], then the "Area" patch. *)
Definition region_title (REGC_name_ascii : string) : result string :=
  title ← Py.getitem (Py.split REGC_name_ascii " Region") 0;
  mret (if Py.startswith title "Area" then "Chatham Islands" else title).

(** One row [(REGC_code, REGC_name_ascii)]: [None] for the skipped code
    "99", otherwise [(region_name, region_title)]. *)
Definition region_of_row (row : string * string) : result (option (string * string)) :=
  let region_code := row.1 in
  if String.eqb region_code "99" then mret None
  else
    region_name ← subscript lookup_dict_region region_code;
    title ← region_title row.2;
    mret (Some (region_name, title)).

(** [os.path.join(folder, f"{new_file_name.split('.')[0]}_{region_name}.tif")] *)
Definition output_clipped_raster `{os.path}
    (output_folder_converted_region new_file_name region_name : string) : result string :=
  stem ← Py.getitem (Py.split new_file_name ".") 0;
  mret (os.join output_folder_converted_region
          (stem +:+ "_" +:+ region_name +:+ ".tif")).

(** ** Packaging: the [zipfile.ZipFile(zip_file_path, "w")] block *)

(** An archive opened in mode "w": the names of its members, in the order
    they were written. *)
Definition archive : Type := list string.

Section Packaging.
Context `{os.path}.

(** What reading a file from disk does when [zip_file.write] is called on
    it: [None] when the file is read, [Some e] when [e] is raised. *)
Variable write_error : string → option exn.

(** [zip_file.write(path, arcname)] *)
Definition zip_write (path arcname : string) (z : archive) : result archive :=
  match write_error path with
  | Some e => Raise e
  | None => Ok (z ++ [arcname])
  end.

(** One iteration of [for file in os.listdir(base_clip_dir)].  The state
    is the archive and the error log. *)
Definition add_member (base_clip_dir tif_base_name : string) (file : string)
    (st : archive * list (string * exn)) : result (archive * list (string * exn)) :=
  if Py.startswith file tif_base_name then
    if Py.endswith file ".lock" then Ok st
    else
      match zip_write (os.join base_clip_dir file) file st.1 with
      | Ok z => Ok (z, st.2)
      | Raise e =>
          if is_Exception e then Ok (st.1, st.2 ++ [(file, e)])
          else Raise e
      end
  else Ok st.

Fixpoint add_members (base_clip_dir tif_base_name : string) (files : list string)
    (st : archive * list (string * exn)) : result (archive * list (string * exn)) :=
  match files with
  | [] => Ok st
  | file :: files' =>
      st' ← add_member base_clip_dir tif_base_name file st;
      add_members base_clip_dir tif_base_name files' st'
  end.

(** The whole block for one clipped raster; [listdir] is [os.listdir].
    Returns [zip_file_path], the archive written and the error log. *)
Definition make_zip (listdir : string → list string) (output_clipped_raster : string)
  : result (string * archive * list (string * exn)) :=
  let '(base_clip_dir, base_clip_name) := os.split output_clipped_raster in
  let '(tif_base_name, tif_ext) := os.splitext base_clip_name in
  let zip_file_path := os.join OUTPUT_FOLDER_ZIPPED (tif_base_name +:+ ".zip") in
  st ← add_members base_clip_dir tif_base_name (listdir base_clip_dir) ([], []);
  mret (zip_file_path, st.1, st.2).

End Packaging.

(** ** Upload: the boto3 import guard and [upload_file] *)

(** The S3 resource: [s3.Bucket(bucket_name).upload_file(file_path, object_name)]. *)
Record s3_resource : Type := {
  Bucket_upload_file : string → string → string → result unit
}.

(** The module-level [try: import boto3 ... s3 = session.resource("s3")
    except ImportError: ...].  The name [s3] is bound afterwards only when
    the block ran to its end. *)
Definition import_guard (block : result s3_resource) : result (option s3_resource) :=
  match block with
  | Ok r => Ok (Some r)
  | Raise (ImportError _) => Ok None
  | Raise e => Raise e
  end.

Definition object_name `{os.path} (file_path : string) (prefix : option string) : string :=
  let file_name := os.basename file_path in
  match prefix with
  | Some p =>
      if Py.truthy prefix then Py.strip p "/" +:+ "/" +:+ file_name
      else file_name
  | None => file_name
  end.

(** [upload_file(file_path, bucket_name, prefix=None)]; [s3] is the
    module-level name, [None] when it is unbound. *)
Definition upload_file `{os.path} (s3 : option s3_resource)
    (file_path bucket_name : string) (prefix : option string) : result bool :=
  let object_name := object_name file_path prefix in
  let attempt :=
    match s3 with
    | None => Raise (NameError "s3")
    | Some r => Bucket_upload_file r bucket_name file_path object_name
    end in
  match attempt with
  | Ok _ => Ok true
  | Raise e => if is_Exception e then Ok false else Raise e
  end.

(** ** Metadata emitter: [create_json_file] *)

(** [datetime] objects and [datetime.isoformat()]. *)
Record datetime : Type := {
  year : N; month : N; day : N;
  hour : N; minute : N; second : N; microsecond : N
}.

Fixpoint zeros (n : nat) : string :=
  match n with
  | O => ""
  | S n' => String "0" (zeros n')
  end.

(** ["%0wd" % n] *)
Definition zfill (w : nat) (n : N) : string :=
  let s := pretty n in
  zeros (w - String.length s) +:+ s.

Definition isoformat (d : datetime) : string :=
  zfill 4 (year d) +:+ "-" +:+ zfill 2 (month d) +:+ "-" +:+ zfill 2 (day d)
  +:+ "T" +:+ zfill 2 (hour d) +:+ ":" +:+ zfill 2 (minute d) +:+ ":"
  +:+ zfill 2 (second d)
  +:+ (if N.eqb (microsecond d) 0 then "" else "." +:+ zfill 6 (microsecond d)).

(** [strptime(START_DATE_STR, "%Y-%m-%d")] and [strptime(STOP_DATE_STR, ...)] *)
Definition date_obj_start : datetime :=
  {| year := 1991; month := 1; day := 1;
     hour := 0; minute := 0; second := 0; microsecond := 0 |}.
Definition date_obj_stop : datetime :=
  {| year := 2020; month := 12; day := 31;
     hour := 0; minute := 0; second := 0; microsecond := 0 |}.

Definition iso_date_str_start : string :=
  Eval vm_compute in isoformat date_obj_start.
Definition iso_date_str_stop : string :=
  Eval vm_compute in isoformat date_obj_stop.

(** JSON values as [json.dump] receives them; [number] is the type of the
    coordinates arcpy hands back. *)
#[warnings="-register-all"]
Inductive json (number : Type) : Type :=
  | JString (s : string)
  | JNumber (x : number)
  | JArray (items : list (json number))
  | JObject (fields : list (string * json number)).
Arguments JString {number} s.
Arguments JNumber {number} x.
Arguments JArray {number} items.
Arguments JObject {number} fields.

(** [doc[key]] on a JSON object, as an option. *)
Definition json_get {number} (key : string) (doc : json number) : option (json number) :=
  match doc with
  | JObject fields => snd <$> List.find (λ kv, String.eqb kv.1 key) fields
  | _ => None
  end.

(** [doc["metadata"][key]] *)
Definition metadata_get {number} (key : string) (doc : json number) : option (json number) :=
  json_get "metadata" doc ≫= json_get key.

(** The keys of a JSON object, in order. *)
Definition json_keys {number} (doc : json number) : list string :=
  match doc with
  | JObject fields => fields.*1
  | _ => []
  end.

Section Emitter.
Context `{os.path} {Extent number : Type}.

(** [arcpy.Project_management(extent.polygon, ..., WGS84)] followed by the
    cursor loop: for each row the [X, Y] pairs of part 0 of its shape. *)
Variable reprojected_parts : Extent → list (list (number * number)).

Definition coordinates (extent : Extent) : json number :=
  JArray ((λ part, JArray ((λ xy, JArray [JNumber xy.1; JNumber xy.2]) <$> part))
            <$> reprojected_parts extent).

Definition dollar_date (s : string) : json number := JObject [("$date", JString s)].

(** [create_json_file(file_path, prefix, extent, region_title,
    month_and_season)], with [now] the value of [datetime.now()].
    Returns [json_file_path] and the document written there. *)
Definition create_json_file (now : datetime) (file_path prefix : string)
    (extent : Extent) (region_title month_and_season : string)
  : result (string * json number) :=
  let file_name := os.basename file_path in
  let file_stem := (os.splitext file_name).1 in
  let components := Py.split file_name "_" in
  component0 ← Py.getitem components 0;
  let type_param :=
    Py.map_chars (λ char, if negb (Ascii.eqb char "-") then char else " "%char)
                 component0 in
  period ← Py.getitem components 2;
  statistic ← Py.getitem components 1;
  last ← Py.getitem components (-1);
  region ← Py.getitem (Py.split last ".") 0;
  let geojson := JObject [("type", JString "Polygon");
                          ("coordinates", coordinates extent)] in
  let iso_date_str_startz := iso_date_str_start +:+ "Z" in
  let iso_date_str_stopz := iso_date_str_stop +:+ "Z" in
  let iso_string := isoformat now in
  let iso_stringz := iso_string +:+ "Z" in
  let json_data :=
    JObject [
      ("src", JString ("/" +:+ prefix +:+ "/" +:+ file_stem +:+ ".zip"));
      ("productRef", JString prefix);
      ("metadata", JObject [
         ("title", JString ("Climatology Grid " +:+ type_param
                             +:+ " (1991-2020), " +:+ month_and_season
                             +:+ ", Region: " +:+ region_title));
         ("description", JString (
            "This dataset comprises a 500m resolution grid of climatologic normals (averages) for: Parameter: "
            +:+ type_param +:+ "; Statistic: " +:+ statistic
            +:+ "; Period: " +:+ period +:+ "; " +:+ month_and_season
            +:+ "; Region: " +:+ region_title));
         ("geojson", geojson);
         ("dateMin", dollar_date iso_date_str_startz);
         ("dateMax", dollar_date iso_date_str_stopz);
         ("version", JString "1.0");
         ("updatedAt", dollar_date iso_stringz);
         ("parameter", JString type_param);
         ("period", JString month_and_season);
         ("statistic", JString statistic);
         ("region", JString region_title) ]) ] in
  let '(base_json_dir, base_json_file_name) := os.split file_path in
  let json_file_name := (os.splitext base_json_file_name).1 +:+ ".json" in
  let json_file_path := os.join OUTPUT_FOLDER_ZIPPED json_file_name in
  mret (json_file_path, json_data).

End Emitter.

(** ** Vocabulary for the classifier's contract *)

(** The files [os.walk] reaches, as [(root, file)], in traversal order. *)
Definition walk_files `{os.path} (fs : fs_tree) (top : string) : list (string * string) :=
  '(root, _, files) ← os_walk top fs; pair root <$> files.

(** Those with the raster-grid extension. *)
Definition asc_files `{os.path} (fs : fs_tree) (top : string) : list (string * string) :=
  filter (λ e, Py.endswith e.2 ".asc" = true) (walk_files fs top).

(** The stem of a file name and the path recorded for a file. *)
Definition stem `{os.path} (file : string) : string := (os.splitext file).1.
Definition recorded_path `{os.path} (e : string * string) : string := os.join e.1 e.2.

(** The paths of the files of [es] whose stem is [k], in the order of [es]. *)
Definition group `{os.path} (k : string) (es : list (string * string)) : list string :=
  recorded_path <$> filter (λ e, stem e.2 = k) es.

(** Keys in order of first occurrence, leaving out those already [seen]. *)
Fixpoint new_keys (seen ks : list string) : list string :=
  match ks with
  | [] => []
  | k :: ks' =>
      if decide (k ∈ seen) then new_keys seen ks'
      else k :: new_keys (seen ++ [k]) ks'
  end.

(** [if k in d: d[k].append(p) else: d[k] = [p]] *)
Definition insert_path (k p : string) (d : dict) : dict :=
  if dict_contains d k then dict_append d k p else dict_set_new d k [p].

(** The paths recorded under [k] among the [(key, path)] pairs [kps]. *)
Definition paths_of (k : string) (kps : list (string * string)) : list string :=
  (filter (λ kp, kp.1 = k) kps).*2.

(** An entry already present gains the new paths of its key; a key not yet
    present gets them as a new entry. *)
Definition extend (kps : list (string * string)) (kl : string * list string)
  : string * list string :=
  (kl.1, kl.2 ++ paths_of kl.1 kps).
Definition fresh (kps : list (string * string)) (k : string) : string * list string :=
  (k, paths_of k kps).

(** Stem and recorded path of each file: the pairs the loop inserts. *)
Definition keyed `{os.path} (es : list (string * string)) : list (string * string) :=
  (λ e, (stem e.2, recorded_path e)) <$> es.

(** Section 4.3 of the specification says what a region title is in
    words: the display name without a trailing " Region", patched to
    "Chatham Islands" when what is left begins with "Area".  This is that
    reading, to compare [region_title] with. *)
Definition title_without_suffix (display_name : string) : string :=
  let title :=
    if Py.endswith display_name " Region"
    then Py.take (String.length display_name - String.length " Region") display_name
    else display_name in
  if Py.startswith title "Area" then "Chatham Islands" else title.

(** [sep] occurs in [s] nowhere but, possibly, as its very end. *)
Fixpoint only_trailing (sep s : string) : bool :=
  match s with
  | "" => true
  | String _ s' =>
      (String.eqb s sep || negb (String.prefix sep s)) && only_trailing sep s'
  end.

(** [s] has a character that is not in [chars]. *)
Fixpoint has_other_char (s chars : string) : bool :=
  match s with
  | "" => false
  | String c s' => negb (Py.contains_char chars c) || has_other_char s' chars
  end.

(** A small input tree: two region folders holding the same grid. *)
Definition demo_tree : fs_tree :=
  Folder ["readme.txt"]
    [ ("01", Folder ["g_00_x_y_500m_monthly1.asc"; "g_00_x_y_500m_annual.asc"] []);
      ("02", Folder ["g_00_x_y_500m_monthly1.asc"; "notes.asc.txt"] []) ].

(** A file of the listing belongs in the archive of [tif_base_name]: same
    prefix, no lock file. *)
Definition wanted (tif_base_name file : string) : bool :=
  Py.startswith file tif_base_name && negb (Py.endswith file ".lock").

(** [type_param]: dashes turned into spaces. *)
Definition dashes_to_spaces (s : string) : string :=
  Py.map_chars (λ char, if negb (Ascii.eqb char "-") then char else " "%char) s.

(** A clipped raster as the pipeline names it, for the examples. *)
Definition demo_raster : string :=
  "/out/regions_grids/01/Total-Rainfall_500m_1991-2020_January_Bay-Of-Plenty.tif".

(** ** The main loop: [process_files_in_ascdict] *)

(** What a run does to the outside world, in order. *)
Inductive event (number : Type) : Type :=
  | MakeDirs (path : string)
  | CopyRaster (input_raster output_raster : string)
  | DefineProjection (output_raster : string)
  | Clip (in_raster out_raster : string)
  | ZipFile (zip_file_path : string) (members : archive)
  | Upload (file_path bucket_name key : string) (uploaded : bool)
  | JsonFile (json_file_path : string) (doc : json number).
Arguments MakeDirs {number} path.
Arguments CopyRaster {number} input_raster output_raster.
Arguments DefineProjection {number} output_raster.
Arguments Clip {number} in_raster out_raster.
Arguments ZipFile {number} zip_file_path members.
Arguments Upload {number} file_path bucket_name key uploaded.
Arguments JsonFile {number} json_file_path doc.

(** An upload attempt, as opposed to an effect on the local disk. *)
Definition is_upload {number} (ev : event number) : bool :=
  match ev with
  | Upload _ _ _ _ => true
  | _ => false
  end.

(** A step of the run: given the number of clock readings so far, the
    events it causes and either its value with the new number of readings,
    or the exception that ends it.  The events stay when a step raises. *)
Definition run (number A : Type) : Type :=
  nat → list (event number) * result (A * nat).

Definition run_ret {number A} (a : A) : run number A := λ t, ([], Ok (a, t)).

Definition run_bind {number A B} (m : run number A) (f : A → run number B)
  : run number B := λ t,
  match m t with
  | (tr, Ok (a, t')) => let '(tr', r) := f a t' in (tr ++ tr', r)
  | (tr, Raise e) => (tr, Raise e)
  end.

(** A computation of the script itself: no event. *)
Definition lift {number A} (r : result A) : run number A := λ t,
  ([], match r with Ok a => Ok (a, t) | Raise e => Raise e end).

(** An event that always takes place. *)
Definition emit {number} (ev : event number) : run number unit := λ t,
  ([ev], Ok ((), t)).

(** [for x in l: body(x)] *)
Fixpoint for_each {number A} (l : list A) (body : A → run number unit)
  : run number unit :=
  match l with
  | [] => run_ret ()
  | x :: l' => run_bind (body x) (λ _, for_each l' body)
  end.

Section Process.
Context `{os.path} {Extent number : Type}.

(** The outside world: which calls into arcpy and [os.makedirs] raise, the
    rows the search cursor yields (code, name, extent of the shape), the
    directory listings, the errors of reading archive members, arcpy's
    reprojection and the successive readings of the clock. *)
Variable external_error : event number → option exn.
Variable cursor_rows : list (string * string * Extent).
Variable listdir : string → list string.
Variable write_error : string → option exn.
Variable reprojected_parts : Extent → list (list (number * number)).
Variable clock : nat → datetime.

(** A call into arcpy or [os.makedirs]: it raises, or it takes place. *)
Definition call (ev : event number) : run number unit := λ t,
  match external_error ev with
  | Some e => ([], Raise e)
  | None => ([ev], Ok ((), t))
  end.

(** [datetime.now()] *)
Definition datetime_now : run number datetime := λ t, ([], Ok (clock t, S t)).

(** [upload_file(file_path, COMPANY_bucket_data_hub, prefix)], its return
    value dropped. *)
Definition upload_step (s3 : option s3_resource) (file_path bucket_name prefix : string)
  : run number unit :=
  run_bind (lift (upload_file s3 file_path bucket_name (Some prefix))) (λ uploaded,
  emit (Upload file_path bucket_name (object_name file_path (Some prefix)) uploaded)).

(** The body of [for row in cursor]. *)
Definition process_row (s3 : option s3_resource) (bucket_name prefix : string)
    (output_folder_converted_region new_file_name month_and_season output_raster : string)
    (row : string * string * Extent) : run number unit :=
  run_bind (lift (region_of_row (row.1.1, row.1.2))) (λ region,
  match region with
  | None => run_ret ()
  | Some (region_name, region_title) =>
      let region_extent := row.2 in
      run_bind (lift (output_clipped_raster output_folder_converted_region
                        new_file_name region_name)) (λ output_clipped_raster,
      run_bind (call (Clip output_raster output_clipped_raster)) (λ _,
      run_bind (lift (make_zip write_error listdir output_clipped_raster)) (λ zipped,
      run_bind (emit (ZipFile zipped.1.1 zipped.1.2)) (λ _,
      run_bind (upload_step s3 zipped.1.1 bucket_name prefix) (λ _,
      run_bind datetime_now (λ now,
      run_bind (lift (create_json_file reprojected_parts now output_clipped_raster
                        prefix region_extent region_title month_and_season)) (λ md,
      run_bind (emit (JsonFile md.1 md.2)) (λ _,
      upload_step s3 md.1 bucket_name prefix))))))))
  end).

(** The body of [for file_path in file_list]. *)
Definition process_file (s3 : option s3_resource) (bucket_name prefix : string)
    (base_name file_path : string) : run number unit :=
  let region_code := os.basename (os.dirname file_path) in
  let input_raster := file_path in
  let output_folder_converted_region := os.join OUTPUT_FOLDER_REGIONS region_code in
  run_bind (call (MakeDirs output_folder_converted_region)) (λ _,
  run_bind (lift (derive_names base_name)) (λ n,
  let output_raster :=
    os.join OUTPUT_FOLDER_CONVERTED (new_file_name n +:+ ".tif") in
  run_bind (call (CopyRaster input_raster output_raster)) (λ _,
  run_bind (call (DefineProjection output_raster)) (λ _,
  for_each cursor_rows
    (process_row s3 bucket_name prefix output_folder_converted_region
       (new_file_name n) (month_and_season n) output_raster))))).

(** [process_files_in_ascdict(ascfile_dict, COMPANY_bucket_data_hub, prefix)],
    with [s3] the module-level name ([None] when unbound). *)
Definition process_files_in_ascdict (s3 : option s3_resource) (ascfile_dict : dict)
    (COMPANY_bucket_data_hub prefix : string) : run number unit :=
  for_each ascfile_dict (λ group,
    for_each group.2
      (process_file s3 COMPANY_bucket_data_hub prefix group.1)).

End Process.

(** Two events that are the same but, for an upload, for its outcome. *)
Definition same_but_outcome {number} (ev ev' : event number) : Prop :=
  match ev, ev' with
  | Upload file_path bucket_name key _, Upload file_path' bucket_name' key' _ =>
      file_path = file_path' ∧ bucket_name = bucket_name' ∧ key = key'
  | _, _ => ev = ev'
  end.

(** Two steps that cause the same events, upload outcomes apart, and end
    the same way. *)
Definition agree {number A} (m m' : run number A) : Prop :=
  ∀ t, Forall2 same_but_outcome (m t).1 (m' t).1 ∧ (m t).2 = (m' t).2.

(** A storage client whose failures are all [Exception]s. *)
Definition upload_safe (s3 : option s3_resource) : Prop :=
  ∀ r bucket_name file_path key e,
    s3 = Some r →
    Bucket_upload_file r bucket_name file_path key = Raise e →
    is_Exception e = true.

(** Archives and descriptors among the events, and how many events of a
    kind a run has caused. *)
Definition is_zip {number} (ev : event number) : bool :=
  match ev with
  | ZipFile _ _ => true
  | _ => false
  end.

Definition is_json {number} (ev : event number) : bool :=
  match ev with
  | JsonFile _ _ => true
  | _ => false
  end.

Definition count_events {number} (p : event number → bool) (tr : list (event number)) : nat :=
  length (filter (λ ev, p ev = true) tr).

(** The rows of the cursor that are not skipped. *)
Definition clipped_rows {Extent} (rows : list (string * string * Extent))
  : list (string * string * Extent) :=
  filter (λ row, row.1.1 ≠ "99") rows.

(** * Proofs *)

(** ** Insertion-ordered dictionaries *)

Section DictFacts.
Implicit Types (d : dict) (k p : string) (kps : list (string * string)).

Lemma dict_append_keys d k p : (dict_append d k p).*1 = d.*1.
Proof.
  induction d as [|[k' l] d IH]; csimpl; [done|].
  case_decide; csimpl; [done|]. by rewrite IH.
Qed.

Lemma dict_append_absent d k p : k ∉ d.*1 → dict_append d k p = d.
Proof.
  induction d as [|[k' l] d IH]; csimpl; [done|].
  intros Hk. apply not_elem_of_cons in Hk as [Hne Hk].
  case_decide; [congruence|]. by rewrite IH.
Qed.

Lemma insert_path_keys_NoDup d k p : NoDup d.*1 → NoDup (insert_path k p d).*1.
Proof.
  intros Hd. unfold insert_path, dict_contains, dict_set_new.
  case_bool_decide as Hk.
  - by rewrite dict_append_keys.
  - rewrite fmap_app. csimpl. apply NoDup_app. split_and!; [done| |apply NoDup_singleton].
    intros x Hx ->%list_elem_of_singleton. done.
Qed.

Lemma paths_of_cons_eq k p kps : paths_of k ((k, p) :: kps) = p :: paths_of k kps.
Proof. unfold paths_of. by rewrite filter_cons_True. Qed.

Lemma paths_of_cons_ne k k' p kps : k' ≠ k → paths_of k ((k', p) :: kps) = paths_of k kps.
Proof. intros. unfold paths_of. by rewrite filter_cons_False. Qed.

Lemma extend_cons_other d k p kps :
  k ∉ d.*1 → extend ((k, p) :: kps) <$> d = extend kps <$> d.
Proof.
  intros Hk. apply list_fmap_ext. intros i [k' l] Hi. unfold extend. csimpl.
  rewrite paths_of_cons_ne; [done|]. intros ->. apply Hk.
  apply list_elem_of_fmap. exists (k', l). split; [done|].
  by eapply list_elem_of_lookup_2.
Qed.

Lemma extend_dict_append d k p kps :
  NoDup d.*1 → extend kps <$> dict_append d k p = extend ((k, p) :: kps) <$> d.
Proof.
  induction d as [|[k' l] d IH]; csimpl; [done|].
  intros [Hk' Hd]%NoDup_cons. case_decide as Heq; csimpl.
  - subst k'. rewrite extend_cons_other; [|done]. f_equal.
    unfold extend. csimpl. by rewrite paths_of_cons_eq, <-(assoc_L (++)).
  - rewrite IH; [|done]. f_equal. unfold extend. csimpl.
    by rewrite paths_of_cons_ne.
Qed.

Lemma new_keys_spec seen ks k :
  k ∈ new_keys seen ks ↔ k ∈ ks ∧ k ∉ seen.
Proof.
  revert seen. induction ks as [|k' ks IH]; intros seen; csimpl.
  - split; [by intros ?%elem_of_nil|by intros [?%elem_of_nil _]].
  - case_decide as Hs.
    + rewrite IH, elem_of_cons. split; [naive_solver|].
      intros [[->|?] ?]; [done|done].
    + rewrite !elem_of_cons, IH, elem_of_app, list_elem_of_singleton.
      split; [naive_solver|].
      intros [[->|?] ?]; [by left|].
      destruct (decide (k = k')) as [->|]; [by left|right; naive_solver].
Qed.

Lemma new_keys_NoDup seen ks : NoDup (new_keys seen ks).
Proof.
  revert seen. induction ks as [|k ks IH]; intros seen; csimpl.
  - apply NoDup_nil_2.
  - case_decide; [done|]. apply NoDup_cons. split; [|done].
    rewrite new_keys_spec, elem_of_app, list_elem_of_singleton. naive_solver.
Qed.

Lemma new_keys_all_seen seen ks : ks ⊆ seen → new_keys seen ks = [].
Proof.
  induction ks as [|k ks IH]; csimpl; [done|]. intros Hsub.
  rewrite decide_True by (apply Hsub; left).
  apply IH. intros x Hx. apply Hsub. by right.
Qed.

Lemma fresh_cons_other (K : list string) k p kps :
  k ∉ K → fresh ((k, p) :: kps) <$> K = fresh kps <$> K.
Proof.
  intros Hk. apply list_fmap_ext. intros i k' Hi. unfold fresh.
  rewrite paths_of_cons_ne; [done|]. intros ->. apply Hk.
  by eapply list_elem_of_lookup_2.
Qed.

(** What a run of insertions does to a dictionary with distinct keys:
    every entry already there is extended by the new paths of its key,
    and the keys not yet there are appended in order of first
    occurrence. *)
Lemma foldl_insert_path kps d :
  NoDup d.*1 →
  foldl (λ d kp, insert_path kp.1 kp.2 d) d kps
  = (extend kps <$> d) ++ (fresh kps <$> new_keys d.*1 kps.*1).
Proof.
  revert d. induction kps as [|[k p] kps IH]; intros d Hd; csimpl.
  - rewrite app_nil_r. symmetry. etrans; [|apply list_fmap_id].
    apply list_fmap_ext. intros i [k l] _. unfold extend, paths_of. csimpl.
    by rewrite app_nil_r.
  - rewrite IH by by apply insert_path_keys_NoDup.
    unfold insert_path, dict_contains. case_bool_decide as Hk.
    + rewrite dict_append_keys, extend_dict_append by done.
      rewrite decide_True by done. f_equal.
      symmetry. apply fresh_cons_other. rewrite new_keys_spec. naive_solver.
    + unfold dict_set_new. rewrite decide_False by done.
      rewrite !fmap_app, <-(assoc_L (++)). csimpl.
      rewrite extend_cons_other by done. f_equal.
      unfold extend at 1. csimpl. unfold fresh at 2.
      rewrite paths_of_cons_eq. f_equal.
      symmetry. apply fresh_cons_other. rewrite new_keys_spec.
      rewrite elem_of_app, list_elem_of_singleton. naive_solver.
Qed.

Lemma insert_path_concat d k p :
  concat (insert_path k p d).*2 ≡ₚ concat d.*2 ++ [p].
Proof.
  unfold insert_path, dict_contains, dict_set_new. case_bool_decide as Hk.
  - induction d as [|[k' l] d IH]; csimpl; [by apply elem_of_nil in Hk|].
    case_decide as Heq; csimpl.
    + rewrite <-!(assoc_L (++)). f_equiv. apply Permutation_app_comm.
    + rewrite <-(assoc_L (++)). f_equiv. apply IH.
      csimpl in Hk. apply elem_of_cons in Hk as [->|Hk]; done.
  - rewrite fmap_app, concat_app. csimpl. done.
Qed.

Lemma foldl_insert_path_concat kps d :
  concat (foldl (λ d kp, insert_path kp.1 kp.2 d) d kps).*2 ≡ₚ concat d.*2 ++ kps.*2.
Proof.
  revert d. induction kps as [|[k p] kps IH]; intros d; csimpl.
  - by rewrite app_nil_r.
  - rewrite IH, insert_path_concat. csimpl.
    rewrite <-(assoc_L (++)). done.
Qed.

End DictFacts.

(** ** The classifier *)

Section Classifier.
Context `{os.path}.
Implicit Types (d : dict) (fs : fs_tree) (es : list (string * string)).

Lemma record_file_insert root file d :
  record_file root file d
  = if Py.endswith file ".asc"
    then insert_path (stem file) (os.join root file) d else d.
Proof.
  unfold record_file, stem. destruct (Py.endswith file ".asc"); [|done].
  by destruct (os.splitext file).
Qed.

Lemma parse_input_files_flat fs top d :
  parse_input_files fs top d
  = foldl (λ d e, record_file e.1 e.2 d) d (walk_files fs top).
Proof.
  unfold parse_input_files, walk_files.
  generalize (os_walk top fs) as w. intros w. revert d.
  induction w as [|[[root dirs] files] w IH]; intros d; csimpl; [done|].
  rewrite foldl_app, <-IH. f_equal.
  generalize d. clear. induction files as [|f files IH]; intros d; csimpl; [done|].
  apply IH.
Qed.

Lemma foldl_record_file es d :
  foldl (λ d e, record_file e.1 e.2 d) d es
  = foldl (λ d kp, insert_path kp.1 kp.2 d) d
      (keyed (filter (λ e, Py.endswith e.2 ".asc" = true) es)).
Proof.
  revert d. induction es as [|[root file] es IH]; intros d; csimpl; [done|].
  rewrite record_file_insert, IH.
  destruct (Py.endswith file ".asc") eqn:Hasc.
  - by rewrite filter_cons_True.
  - rewrite filter_cons_False; [done|]. simpl. by rewrite Hasc.
Qed.

Lemma paths_of_keyed k es : paths_of k (keyed es) = group k es.
Proof.
  unfold paths_of, keyed, group.
  induction es as [|e es IH]; csimpl; [done|].
  destruct (decide (stem e.2 = k)) as [Hk|Hk].
  - rewrite !filter_cons_True by done. csimpl. by rewrite IH.
  - by rewrite !filter_cons_False.
Qed.

Lemma keyed_keys es : (keyed es).*1 = (λ e, stem e.2) <$> es.
Proof. unfold keyed. rewrite <-list_fmap_compose. done. Qed.

Lemma keyed_paths es : (keyed es).*2 = recorded_path <$> es.
Proof. unfold keyed. rewrite <-list_fmap_compose. done. Qed.

(** The dictionary after a call, whatever it held before (with distinct
    keys, as every Python dictionary has). *)
Lemma parse_input_files_from fs top d :
  NoDup d.*1 →
  let files := asc_files fs top in
  parse_input_files fs top d
  = ((λ kl, (kl.1, kl.2 ++ group kl.1 files)) <$> d)
    ++ ((λ k, (k, group k files)) <$> new_keys d.*1 ((λ e, stem e.2) <$> files)).
Proof.
  intros Hd files.
  rewrite parse_input_files_flat, foldl_record_file.
  fold (asc_files fs top). fold files.
  rewrite foldl_insert_path by done. rewrite keyed_keys. f_equal.
  - apply list_fmap_ext. intros i [k l] _. unfold extend. simpl.
    by rewrite paths_of_keyed.
  - apply list_fmap_ext. intros i k _. unfold fresh.
    by rewrite paths_of_keyed.
Qed.

Lemma parse_input_files_concat fs top d :
  concat (parse_input_files fs top d).*2
  ≡ₚ concat d.*2 ++ (recorded_path <$> asc_files fs top).
Proof.
  rewrite parse_input_files_flat, foldl_record_file.
  rewrite foldl_insert_path_concat. by rewrite keyed_paths.
Qed.

(** The dictionary a call on the empty dictionary leaves behind. *)
Lemma parse_input_files_fresh fs top :
  let files := asc_files fs top in
  parse_input_files fs top []
  = (λ k, (k, group k files)) <$> new_keys [] ((λ e, stem e.2) <$> files).
Proof. intros files. by rewrite parse_input_files_from by constructor. Qed.

Lemma parse_input_files_fresh_keys fs top :
  (parse_input_files fs top []).*1
  = new_keys [] ((λ e, stem e.2) <$> asc_files fs top).
Proof.
  rewrite parse_input_files_fresh, <-list_fmap_compose. apply list_fmap_id.
Qed.

Lemma new_keys_nil_elem (ks : list string) k : k ∈ new_keys [] ks ↔ k ∈ ks.
Proof.
  rewrite new_keys_spec. split; [by intros []|].
  intros ?. split; [done|]. by intros ?%elem_of_nil.
Qed.




End Classifier.





(** C8. A second call over the same tree starts from the dictionary the
    first call left behind: it keeps the keys and appends every group to
    itself, so each recorded path is there twice; unless there was no
    ".asc" file at all, the result differs from the first call's. *)
Theorem parse_input_files_not_idempotent `{os.path} (fs : fs_tree) (input_location : string) :
  let d1 := parse_input_files fs input_location ascfile_dict_init in
  let d2 := parse_input_files fs input_location d1 in
  d2 = (λ kl, (kl.1, kl.2 ++ kl.2)) <$> d1
  ∧ concat d2.*2 ≡ₚ concat d1.*2 ++ concat d1.*2
  ∧ (asc_files fs input_location ≠ [] → d2 ≠ d1).
Proof.
  intros d1 d2. unfold ascfile_dict_init in d1.
  set (files := asc_files fs input_location).
  set (stems := (λ e, stem e.2) <$> files).
  assert (Hd1 : d1 = (λ k, (k, group k files)) <$> new_keys [] stems)
    by apply parse_input_files_fresh.
  assert (Hkeys : d1.*1 = new_keys [] stems)
    by apply parse_input_files_fresh_keys.
  assert (Hperm : concat d1.*2 ≡ₚ recorded_path <$> files).
  { unfold d1. by rewrite parse_input_files_concat. }
  assert (Hcat : concat d2.*2 ≡ₚ concat d1.*2 ++ concat d1.*2).
  { unfold d2. rewrite parse_input_files_concat. fold files. by rewrite <-Hperm. }
  split_and!; [|done|].
  - unfold d2. rewrite parse_input_files_from
      by (rewrite Hkeys; apply new_keys_NoDup).
    fold files stems. rewrite new_keys_all_seen
      by (intros k; rewrite Hkeys; apply new_keys_nil_elem).
    csimpl. rewrite app_nil_r. apply list_fmap_ext. intros i [k l] Hi. simpl.
    apply list_elem_of_lookup_2 in Hi. rewrite Hd1 in Hi.
    by apply list_elem_of_fmap in Hi as (k' & [= -> ->] & _).
  - intros Hne Heq. rewrite Heq in Hcat.
    apply Permutation_length in Hcat. rewrite length_app in Hcat.
    apply Permutation_length in Hperm. rewrite length_fmap in Hperm.
    fold files in Hne. destruct files; [done|]. simpl in Hperm. lia.
Qed.

Lemma parse_input_files_not_idempotent_witness :
  parse_input_files demo_tree "/data"
    (parse_input_files demo_tree "/data" ascfile_dict_init)
  ≠ parse_input_files demo_tree "/data" ascfile_dict_init.
Proof.
  destruct (parse_input_files_not_idempotent demo_tree "/data") as (_ & _ & Hne).
  apply Hne. discriminate.
Defined.

(** ** Subscripts *)

Lemma getitem_lookup {A} (l : list A) (i : nat) (x : A) :
  l !! i = Some x → Py.getitem l (Z.of_nat i) = Ok x.
Proof.
  intros Hi. unfold Py.getitem. cbv zeta.
  pose proof (lookup_lt_Some _ _ _ Hi) as Hlt.
  assert ((Z.of_nat i <? 0) = false) as -> by (apply Z.ltb_ge; lia).
  assert ((Z.of_nat i <? 0) = false) as -> by (apply Z.ltb_ge; lia).
  assert ((Z.of_nat (length l) <=? Z.of_nat i) = false) as -> by (apply Z.leb_gt; lia).
  simpl. by rewrite Nat2Z.id, Hi.
Qed.

Lemma getitem_last {A} (l : list A) (x : A) :
  last l = Some x → Py.getitem l (-1) = Ok x.
Proof.
  intros Hl. unfold Py.getitem. cbv zeta. rewrite last_lookup in Hl.
  pose proof (lookup_lt_Some _ _ _ Hl) as Hlt.
  change (-1 <? 0) with true. cbv iota.
  assert ((-1 + Z.of_nat (length l) <? 0) = false) as -> by (apply Z.ltb_ge; lia).
  assert ((Z.of_nat (length l) <=? -1 + Z.of_nat (length l)) = false) as ->
    by (apply Z.leb_gt; lia).
  simpl. replace (Z.to_nat (-1 + Z.of_nat (length l))) with (Nat.pred (length l)) by lia.
  by rewrite Hl.
Qed.

Lemma getitem_beyond {A} (l : list A) (i : nat) :
  l !! i = None → Py.getitem l (Z.of_nat i) = Raise IndexError.
Proof.
  intros Hi. unfold Py.getitem. cbv zeta. apply lookup_ge_None in Hi.
  assert ((Z.of_nat i <? 0) = false) as -> by (apply Z.ltb_ge; lia).
  assert ((Z.of_nat i <? 0) = false) as -> by (apply Z.ltb_ge; lia).
  assert ((Z.of_nat (length l) <=? Z.of_nat i) = true) as -> by (apply Z.leb_le; lia).
  done.
Qed.

Lemma split_from_nonempty sep skip s : Py.split_from sep skip s ≠ [].
Proof.
  revert skip. induction s as [|c s IH]; intros skip; simpl; [done|].
  destruct skip; [|apply IH].
  match goal with |- (if ?b then _ else _) ≠ _ => destruct b end; [done|].
  by destruct (Py.split_from sep 0 s).
Qed.

Lemma split_head s sep : ∃ w ws, Py.split s sep = w :: ws.
Proof.
  unfold Py.split. pose proof (split_from_nonempty sep 0 s).
  destruct (Py.split_from sep 0 s) as [|w ws]; [done|eauto].
Qed.

(** C4. With at least five underscore-separated segments, a parameter code
    (segment 1) and a period token (last segment) that are both in their
    tables give the product name
    [{parameterName}_{segment 4}_1991-2020_{periodName}]; a token missing
    from the period table raises [KeyError] on the token, a code missing
    from the parameter table raises [KeyError] on the code, and
    [derive_names] hands the error on. *)
Theorem derive_names_product_name (base_name code segment4 token : string) :
  let parts := Py.split base_name "_" in
  parts !! 1%nat = Some code →
  parts !! 4%nat = Some segment4 →
  last parts = Some token →
  (∀ parameterName periodName,
     lookup_dict_parameter !! code = Some parameterName →
     lookup_month_and_season_name !! token = Some periodName →
     ∃ n, derive_names base_name = Ok n
          ∧ new_file_name n
            = parameterName +:+ "_" +:+ segment4 +:+ "_1991-2020_" +:+ periodName)
  ∧ (lookup_month_and_season_name !! token = None →
     derive_names base_name = Raise (KeyError token))
  ∧ (is_Some (lookup_month_and_season_name !! token) →
     lookup_dict_parameter !! code = None →
     derive_names base_name = Raise (KeyError code))
  ∧ (lookup_dict_parameter !! code = None
     ∨ lookup_month_and_season_name !! token = None →
     ∃ key, derive_names base_name = Raise (KeyError key)).
Proof.
  intros parts H1 H4 Hlast. unfold derive_names. fold parts.
  pose proof (getitem_lookup parts 1 _ H1) as E1.
  pose proof (getitem_lookup parts 4 _ H4) as E4.
  change (Z.of_nat 1) with 1 in E1. change (Z.of_nat 4) with 4 in E4.
  rewrite (getitem_last _ _ Hlast). cbn [mbind result_bind].
  rewrite E1. cbn [mbind result_bind]. unfold subscript.
  generalize lookup_month_and_season_name as months.
  generalize lookup_dict_parameter as parameters.
  intros parameters months. split_and!.
  - intros pn mn -> ->. cbn [mbind result_bind]. rewrite E4. simpl. eauto.
  - by intros ->.
  - intros [mn ->] ->. done.
  - intros [Hp|Hm].
    + destruct (months !! token); rewrite ?Hp; simpl; eauto.
    + rewrite Hm. simpl. eauto.
Qed.

Lemma derive_names_product_name_witness :
  ∃ n, derive_names "g_00_x_y_500m_monthly1" = Ok n
       ∧ new_file_name n = "Total-Rainfall_500m_1991-2020_January".
Proof.
  destruct (derive_names_product_name "g_00_x_y_500m_monthly1" "00" "500m" "monthly1")
    as [Hok _]; [reflexivity..|].
  apply (Hok "Total-Rainfall" "January"); reflexivity.
Defined.

(** C2. [region_title] cuts the display name at the first " Region", which
    need not be a trailing one: "Waikato Regional Council" does not end in
    " Region" and does not start with "Area", and its title is "Waikato",
    not the unchanged name. *)
Theorem region_title_cuts_at_first_Region :
  region_title "Waikato Regional Council" = Ok "Waikato"
  ∧ title_without_suffix "Waikato Regional Council" = "Waikato Regional Council"
  ∧ Py.endswith "Waikato Regional Council" " Region" = false
  ∧ Py.startswith "Waikato Regional Council" "Area" = false.
Proof. repeat split. Qed.

(** On the display names in which " Region" occurs at the end only, or not
    at all, the cut is the removal of the suffix. *)
Lemma prefix_refl (s : string) : String.prefix s s = true.
Proof.
  induction s as [|c s IH]; [done|]. cbn [String.prefix].
  by destruct (ascii_dec c c).
Qed.

Lemma endswith_length (s sep : string) :
  Py.endswith s sep = true → (String.length sep ≤ String.length s)%nat.
Proof.
  induction s as [|c s IH]; cbn [Py.endswith].
  - destruct (String.eqb_spec "" sep) as [<-|]; [done|discriminate].
  - destruct (String.eqb_spec (String c s) sep) as [<-|]; [done|].
    intros Hs. apply IH in Hs. cbn [String.length]. lia.
Qed.

Lemma split_from_only_trailing (sep s : string) :
  only_trailing sep s = true →
  ∃ ws, Py.split_from sep 0 s
        = (if Py.endswith s sep
           then Py.take (String.length s - String.length sep) s else s) :: ws.
Proof.
  induction s as [|c s IH]; intros Hot.
  - exists []. cbn [Py.split_from Py.endswith].
    by destruct (String.eqb "" sep).
  - cbn [only_trailing] in Hot. apply andb_true_iff in Hot as [Hhere Hrest].
    cbn [Py.split_from Py.endswith].
    destruct (String.eqb_spec (String c s) sep) as [<-|Hne].
    + rewrite prefix_refl, Nat.sub_diag. eauto.
    + cbn [orb] in Hhere. apply negb_true_iff in Hhere. rewrite Hhere.
      destruct (IH Hrest) as [ws ->]. exists ws.
      destruct (Py.endswith s sep) eqn:Hend; [|done].
      apply endswith_length in Hend. cbn [String.length].
      by rewrite Nat.sub_succ_l.
Qed.

Lemma region_title_trailing_only (REGC_name_ascii : string) :
  only_trailing " Region" REGC_name_ascii = true →
  region_title REGC_name_ascii = Ok (title_without_suffix REGC_name_ascii).
Proof.
  intros Hot. unfold region_title, Py.split.
  destruct (split_from_only_trailing _ _ Hot) as [ws ->].
  match goal with
  | |- context [Py.getitem (?h :: ws) 0] =>
      change (Py.getitem (h :: ws) 0) with (Ok (A := string) h)
  end.
  reflexivity.
Qed.

(** ** strip *)

Lemma lstrip_head s chars c r :
  Py.lstrip s chars = String c r → Py.contains_char chars c = false.
Proof.
  induction s as [|a s IH]; simpl; [done|].
  destruct (Py.contains_char chars a) eqn:Ha; [done|].
  by intros [= <- _].
Qed.

Lemma lstrip_nonempty s chars :
  has_other_char s chars = true → Py.lstrip s chars ≠ "".
Proof.
  induction s as [|a s IH]; simpl; [done|].
  destruct (Py.contains_char chars a); simpl; [done|]. by intros _.
Qed.

Lemma lstrip_id s chars :
  (∀ c r, s = String c r → Py.contains_char chars c = false) →
  Py.lstrip s chars = s.
Proof.
  destruct s as [|a s]; simpl; [done|]. intros Hs.
  by rewrite (Hs a s eq_refl).
Qed.

Lemma rstrip_head c r chars :
  Py.contains_char chars c = false →
  ∃ r', Py.rstrip (String c r) chars = String c r'.
Proof.
  intros Hc. simpl. destruct (Py.rstrip r chars); rewrite ?Hc; eauto.
Qed.

Lemma strip_head s chars :
  has_other_char s chars = true →
  ∃ c r, Py.strip s chars = String c r ∧ Py.contains_char chars c = false.
Proof.
  intros Hs. unfold Py.strip.
  destruct (Py.lstrip s chars) as [|c r] eqn:Hl; [by apply lstrip_nonempty in Hl|].
  pose proof (lstrip_head _ _ _ _ Hl) as Hc.
  destruct (rstrip_head c r chars Hc) as [r' ->]. eauto.
Qed.

Lemma startswith_slash_head c r :
  Py.contains_char "/" c = false → Py.startswith (String c r) "/" = false.
Proof.
  intros Hc. unfold Py.startswith. cbn [String.prefix].
  destruct (ascii_dec "/" c) as [<-|]; [|done]. by vm_compute in Hc.
Qed.

Lemma split_slash_head c r :
  Py.contains_char "/" c = false →
  ∃ w ws, Py.split (String c r) "/" = String c w :: ws.
Proof.
  intros Hc. unfold Py.split. cbn [Py.split_from String.prefix].
  destruct (ascii_dec "/" c) as [<-|]; [by vm_compute in Hc|].
  destruct (Py.split_from "/" 0 r); eauto.
Qed.

(** ** Upload *)

Lemma object_name_truthy `{os.path} (file_path p : string) :
  p ≠ "" →
  object_name file_path (Some p) = Py.strip p "/" +:+ "/" +:+ os.basename file_path.
Proof. intros Hp. unfold object_name. by destruct p. Qed.

(** C6, as the code has it.  With a non-empty prefix the key is the prefix
    with the slashes at both of its ends removed, "/" and the base name;
    for a prefix that does not begin with a slash this is the prefix without
    its trailing slashes; with an empty or absent prefix the key is the base
    name. *)
Theorem object_name_key `{os.path} (file_path : string) (prefix : option string) :
  (∀ p, prefix = Some p → p ≠ "" →
     object_name file_path prefix
     = Py.strip p "/" +:+ "/" +:+ os.basename file_path)
  ∧ (∀ p, prefix = Some p → p ≠ "" → Py.startswith p "/" = false →
     object_name file_path prefix
     = Py.rstrip p "/" +:+ "/" +:+ os.basename file_path)
  ∧ (prefix = None ∨ prefix = Some "" →
     object_name file_path prefix = os.basename file_path).
Proof.
  split_and!.
  - intros p -> Hp. by apply object_name_truthy.
  - intros p -> Hp Hslash. rewrite object_name_truthy by done.
    unfold Py.strip. rewrite lstrip_id; [done|].
    intros c r ->. unfold Py.startswith in Hslash. cbn [String.prefix] in Hslash.
    cbn [Py.contains_char]. rewrite orb_false_r.
    destruct (ascii_dec "/" c) as [<-|]; [by destruct r|].
    by apply Ascii.eqb_neq.
  - by intros [->| ->].
Qed.

Lemma object_name_key_witness :
  object_name "/out/zipped/foo.zip" (Some "climatology-grids/")
  = "climatology-grids/foo.zip"
  ∧ object_name "/out/zipped/foo.zip" (Some "") = "foo.zip"
  ∧ object_name "/out/zipped/foo.zip" None = "foo.zip".
Proof.
  split_and!.
  - destruct (object_name_key "/out/zipped/foo.zip" (Some "climatology-grids/"))
      as (Hkey & _ & _).
    apply (Hkey "climatology-grids/"); [reflexivity|discriminate].
  - destruct (object_name_key "/out/zipped/foo.zip" (Some "")) as (_ & _ & Hbase).
    apply Hbase. right. reflexivity.
  - destruct (object_name_key "/out/zipped/foo.zip" None) as (_ & _ & Hbase).
    apply Hbase. left. reflexivity.
Defined.

(** C6 as stated fails: a prefix that begins with a slash loses it, so the
    key is not the prefix with only its trailing slash stripped. *)
Lemma object_name_key_counterexample :
  object_name "/out/zipped/foo.zip" (Some "/climatology-grids/")
  ≠ Py.rstrip "/climatology-grids/" "/" +:+ "/" +:+ os.basename "/out/zipped/foo.zip".
Proof. vm_compute. discriminate. Qed.

(** C9, as the code has it.  For a non-empty prefix the key is the prefix
    stripped of slashes at both ends, "/" and the base name; when the prefix
    has a character other than "/", the key does not begin with a slash and
    its first path segment is not empty. *)
Theorem object_name_strips_both_ends `{os.path} (file_path p : string) :
  p ≠ "" →
  object_name file_path (Some p)
  = Py.strip p "/" +:+ "/" +:+ os.basename file_path
  ∧ (has_other_char p "/" = true →
     Py.startswith (object_name file_path (Some p)) "/" = false
     ∧ ∃ w ws, Py.split (object_name file_path (Some p)) "/" = w :: ws ∧ w ≠ "").
Proof.
  intros Hp. rewrite object_name_truthy by done. split; [done|].
  intros Hother. destruct (strip_head p "/" Hother) as (c & r & -> & Hc).
  split; [by apply startswith_slash_head|].
  destruct (split_slash_head c (r +:+ "/" +:+ os.basename file_path) Hc)
    as (w & ws & Hsplit).
  exists (String c w), ws. split; [exact Hsplit|done].
Qed.

Lemma object_name_strips_both_ends_witness :
  object_name "/out/zipped/foo.zip" (Some "//climatology-grids/")
  = "climatology-grids/foo.zip"
  ∧ Py.startswith (object_name "/out/zipped/foo.zip" (Some "//climatology-grids/")) "/"
    = false.
Proof.
  destruct (object_name_strips_both_ends "/out/zipped/foo.zip" "//climatology-grids/")
    as [Hkey Hlead]; [discriminate|].
  split; [exact Hkey|]. apply Hlead. reflexivity.
Defined.

(** C9 as stated fails: the prefix "/" is non-empty and begins with a
    slash, and the key it produces begins with a slash, its first path
    segment being empty. *)
Lemma object_name_strips_both_ends_counterexample :
  object_name "/out/zipped/foo.zip" (Some "/") = "/foo.zip"
  ∧ Py.startswith (object_name "/out/zipped/foo.zip" (Some "/")) "/" = true
  ∧ Py.split (object_name "/out/zipped/foo.zip" (Some "/")) "/" = [""; "foo.zip"].
Proof. repeat split. Qed.

(** C7. Whatever the upload attempt raises, as long as it is an
    [Exception] (what [except Exception] catches: every error of the
    storage client, and the [NameError] for the name [s3] that the failed
    import left unbound), [upload_file] returns [False] and raises nothing;
    it returns [True] exactly when the client is there and the call
    returned. *)
Theorem upload_file_never_raises `{os.path} (s3 : option s3_resource)
    (file_path bucket_name : string) (prefix : option string) :
  (∀ r e, s3 = Some r →
     Bucket_upload_file r bucket_name file_path (object_name file_path prefix) = Raise e →
     is_Exception e = true) →
  (∃ b, upload_file s3 file_path bucket_name prefix = Ok b
        ∧ (b = true ↔
           ∃ r, s3 = Some r
                ∧ Bucket_upload_file r bucket_name file_path
                    (object_name file_path prefix) = Ok ()))
  ∧ (s3 = None → upload_file s3 file_path bucket_name prefix = Ok false)
  ∧ (∀ name, import_guard (Raise (ImportError name)) = Ok None).
Proof.
  intros Hexc. split_and!; [|by intros ->|done].
  unfold upload_file. destruct s3 as [r|]; simpl.
  - destruct (Bucket_upload_file r bucket_name file_path _) as [[]|e] eqn:Hcall.
    + exists true. split; [done|]. split; [eauto|done].
    + rewrite (Hexc r e eq_refl Hcall). exists false. split; [done|].
      split; [done|]. intros (r' & [= <-] & Hr'). congruence.
  - exists false. split; [done|]. split; [done|]. by intros (r & ? & _).
Qed.

Lemma upload_file_never_raises_witness :
  ∃ b, upload_file
         (Some {| Bucket_upload_file := λ _ _ _, Raise (ClientError "AccessDenied") |})
         "/out/zipped/foo.zip" COMPANY_BUCKET_DATA_HUB (Some PREFIX) = Ok b
       ∧ (b = true ↔
          ∃ r, Some {| Bucket_upload_file := λ _ _ _, Raise (ClientError "AccessDenied") |}
               = Some r
               ∧ Bucket_upload_file r COMPANY_BUCKET_DATA_HUB "/out/zipped/foo.zip"
                   (object_name "/out/zipped/foo.zip" (Some PREFIX)) = Ok ()).
Proof.
  apply (upload_file_never_raises
           (Some {| Bucket_upload_file := λ _ _ _, Raise (ClientError "AccessDenied") |})
           "/out/zipped/foo.zip" COMPANY_BUCKET_DATA_HUB (Some PREFIX)).
  intros r e [= <-]. simpl. intros [= <-]. reflexivity.
Defined.

(** ** Packaging *)

Section PackagingFacts.
Context `{os.path} (write_error : string → option exn).
Hypothesis write_error_Exception :
  ∀ path e, write_error path = Some e → is_Exception e = true.

Lemma add_members_run base_clip_dir tif_base_name files st :
  add_members write_error base_clip_dir tif_base_name files st
  = Ok (st.1 ++ filter (λ file, wanted tif_base_name file = true
                                ∧ write_error (os.join base_clip_dir file) = None) files,
        st.2 ++ omap (λ file, if wanted tif_base_name file
                              then pair file <$> write_error (os.join base_clip_dir file)
                              else None) files).
Proof.
  revert st. induction files as [|file files IH]; intros [z log]; csimpl.
  { by rewrite !app_nil_r. }
  unfold add_member, zip_write. simpl.
  assert (Hwanted : wanted tif_base_name file
                    = Py.startswith file tif_base_name
                      && negb (Py.endswith file ".lock")) by done.
  destruct (Py.startswith file tif_base_name) eqn:Hs; simpl in *.
  - destruct (Py.endswith file ".lock") eqn:Hl; simpl in *.
    + rewrite IH, Hwanted. simpl.
      rewrite filter_cons_False; [done|]. rewrite Hwanted. by intros [? _].
    + destruct (write_error (os.join base_clip_dir file)) as [e|] eqn:Hw; simpl.
      * rewrite (write_error_Exception _ _ Hw). simpl. rewrite IH, Hwanted. simpl.
        rewrite filter_cons_False by (rewrite Hw; by intros [_ ?]).
        by rewrite <-(assoc_L (++)).
      * rewrite IH, Hwanted. simpl. rewrite filter_cons_True by done.
        by rewrite <-(assoc_L (++)).
  - rewrite IH, Hwanted. simpl.
    rewrite filter_cons_False; [done|]. rewrite Hwanted. by intros [? _].
Qed.

End PackagingFacts.



(** ** Metadata emitter *)

#[local] Opaque isoformat.

Section EmitterFacts.
Context `{os.path} {Extent number : Type}.
Variable reprojected_parts : Extent → list (list (number * number)).

Lemma json_get_here (key : string) (v : json number) fields :
  json_get key (JObject ((key, v) :: fields)) = Some v.
Proof. unfold json_get. cbn [List.find fst]. by rewrite String.eqb_refl. Qed.

Lemma json_get_next (key key' : string) (v : json number) fields :
  key' ≠ key →
  json_get key (JObject ((key', v) :: fields)) = json_get key (JObject fields).
Proof.
  intros Hne. unfold json_get. cbn [List.find fst].
  by destruct (String.eqb_spec key' key).
Qed.

Lemma json_get_metadata (src productRef metadata : json number) :
  json_get "metadata"
    (JObject [("src", src); ("productRef", productRef); ("metadata", metadata)])
  = Some metadata.
Proof. reflexivity. Qed.

(** The subscripts of [create_json_file] succeed on a file name with at
    least three segments. *)
Lemma components_subscripts (file_name seg0 seg1 seg2 : string) :
  let components := Py.split file_name "_" in
  components !! 0%nat = Some seg0 →
  components !! 1%nat = Some seg1 →
  components !! 2%nat = Some seg2 →
  Py.getitem components 0 = Ok seg0
  ∧ Py.getitem components 2 = Ok seg2
  ∧ Py.getitem components 1 = Ok seg1
  ∧ ∃ last region, Py.getitem components (-1) = Ok last
                   ∧ Py.getitem (Py.split last ".") 0 = Ok region.
Proof.
  intros components H0 H1 H2.
  split_and!; [exact (getitem_lookup components 0 _ H0)
              |exact (getitem_lookup components 2 _ H2)
              |exact (getitem_lookup components 1 _ H1)|].
  destruct (last components) as [l|] eqn:Hlast.
  - destruct (split_head l ".") as (w & ws & Hsplit).
    exists l, w. split; [by apply getitem_last|].
    apply (getitem_lookup _ 0). by rewrite Hsplit.
  - apply last_None in Hlast. by rewrite Hlast in H0.
Qed.

End EmitterFacts.




(** Case split on whether the field asked for is the next one listed. *)
Ltac case_field :=
  match goal with
  | |- context [json_get ?key (JObject ((?key', _) :: _))] =>
      destruct (decide (key' = key)) as [<-|?];
      [rewrite !json_get_here|rewrite !(json_get_next key key') by done]
  end.

(** C10. Two runs on the same arguments that differ only in the clock
    reading either raise the same error or write, to the same path,
    documents with the same keys in which every top-level field but
    "metadata" and every field of "metadata" but "updatedAt" is the same;
    "updatedAt" is the clock reading of the run. *)
Theorem create_json_file_clock `{os.path} {Extent number : Type}
    (reprojected_parts : Extent → list (list (number * number)))
    (now1 now2 : datetime) (file_path prefix : string) (extent : Extent)
    (title label : string) :
  match create_json_file reprojected_parts now1 file_path prefix extent title label,
        create_json_file reprojected_parts now2 file_path prefix extent title label with
  | Ok (path1, doc1), Ok (path2, doc2) =>
      path1 = path2
      ∧ json_keys doc1 = json_keys doc2
      ∧ (∀ key, key ≠ "metadata" → json_get key doc1 = json_get key doc2)
      ∧ json_keys <$> json_get "metadata" doc1 = json_keys <$> json_get "metadata" doc2
      ∧ (∀ key, key ≠ "updatedAt" → metadata_get key doc1 = metadata_get key doc2)
      ∧ metadata_get "updatedAt" doc1
        = Some (JObject [("$date", JString (isoformat now1 +:+ "Z"))])
      ∧ metadata_get "updatedAt" doc2
        = Some (JObject [("$date", JString (isoformat now2 +:+ "Z"))])
  | Raise e1, Raise e2 => e1 = e2
  | _, _ => False
  end.
Proof.
  unfold create_json_file.
  destruct (Py.getitem (Py.split (os.basename file_path) "_") 0) as [c0|];
    cbn [mbind result_bind]; [|done].
  destruct (Py.getitem (Py.split (os.basename file_path) "_") 2) as [c2|];
    cbn [mbind result_bind]; [|done].
  destruct (Py.getitem (Py.split (os.basename file_path) "_") 1) as [c1|];
    cbn [mbind result_bind]; [|done].
  destruct (Py.getitem (Py.split (os.basename file_path) "_") (-1)) as [l|];
    cbn [mbind result_bind]; [|done].
  destruct (Py.getitem (Py.split l ".") 0) as [region|];
    cbn [mbind result_bind mret result_ret]; [|done].
  destruct (os.split file_path) as [base_json_dir base_json_file_name].
  split_and!; [reflexivity|reflexivity| | | | |].
  - intros key Hkey. repeat case_field; done.
  - by rewrite !json_get_metadata.
  - intros key Hkey. unfold metadata_get.
    rewrite !json_get_metadata. cbn [mbind option_bind].
    repeat case_field; done.
  - unfold metadata_get. rewrite json_get_metadata. cbn [mbind option_bind].
    rewrite !(json_get_next "updatedAt") by discriminate.
    by rewrite json_get_here.
  - unfold metadata_get. rewrite json_get_metadata. cbn [mbind option_bind].
    rewrite !(json_get_next "updatedAt") by discriminate.
    by rewrite json_get_here.
Qed.


(** * Further properties of the script *)

(** ** Region rows *)

Lemma region_title_returns (REGC_name_ascii : string) :
  ∃ title, region_title REGC_name_ascii = Ok title
           ∧ Py.startswith title "Area" = false.
Proof.
  unfold region_title. destruct (split_head REGC_name_ascii " Region") as (w & ws & ->).
  change (Py.getitem (w :: ws) 0) with (Ok (A := string) w).
  cbn [mbind result_bind mret result_ret].
  destruct (Py.startswith w "Area") eqn:Hw; eauto.
Qed.

(** The subscript [[0]] on the split display name never fails, and after
    the "Area" patch no title begins with "Area". *)
Theorem region_title_total (REGC_name_ascii : string) :
  ∃ title, region_title REGC_name_ascii = Ok title
           ∧ Py.startswith title "Area" = false.
Proof. apply region_title_returns. Qed.

(** A cursor row is skipped exactly when its code is "99" (the table entry
    for "99" is never consulted); any other code missing from
    [lookup_dict_region] raises [KeyError] on that code; any other row
    yields the table's region name with the row's title. *)
Theorem region_of_row_cases (REGC_code REGC_name_ascii : string) :
  (region_of_row (REGC_code, REGC_name_ascii) = Ok None ↔ REGC_code = "99")
  ∧ (∀ e, region_of_row (REGC_code, REGC_name_ascii) = Raise e ↔
          REGC_code ≠ "99" ∧ lookup_dict_region !! REGC_code = None
          ∧ e = KeyError REGC_code)
  ∧ (∀ region_name title,
       region_of_row (REGC_code, REGC_name_ascii) = Ok (Some (region_name, title)) ↔
       REGC_code ≠ "99" ∧ lookup_dict_region !! REGC_code = Some region_name
       ∧ region_title REGC_name_ascii = Ok title).
Proof.
  unfold region_of_row, subscript. cbn [fst snd].
  destruct (region_title_returns REGC_name_ascii) as (t & Ht & _). rewrite Ht.
  generalize lookup_dict_region as regions. intros regions.
  destruct (String.eqb_spec REGC_code "99") as [->|Hne].
  - split_and!; [done|intros e|intros rn title]; split; try done; by intros [? _].
  - destruct (regions !! REGC_code) as [rn|]; cbn [mbind result_bind mret result_ret].
    + split_and!; [split; [done|by intros ?]|intros e|intros rn' title].
      * split; [done|]. by intros (_ & ? & _).
      * split; [by intros [= <- <-]|]. by intros (_ & [= <-] & [= <-]).
    + split_and!; [split; [done|by intros ?]|intros e|intros rn' title].
      * split; [by intros [= <-]|]. by intros (_ & _ & ->).
      * split; [done|]. by intros (_ & ? & _).
Qed.

(** ** Subscripts, read backwards *)

Lemma getitem_Ok_lookup {A} (l : list A) (i : nat) (x : A) :
  Py.getitem l (Z.of_nat i) = Ok x → l !! i = Some x.
Proof.
  destruct (l !! i) as [y|] eqn:Hi.
  - rewrite (getitem_lookup _ _ _ Hi). congruence.
  - by rewrite (getitem_beyond _ _ Hi).
Qed.

Lemma getitem_Ok_last {A} (l : list A) (x : A) :
  Py.getitem l (-1) = Ok x → last l = Some x.
Proof.
  destruct (last l) as [y|] eqn:Hl.
  - rewrite (getitem_last _ _ Hl). congruence.
  - apply last_None in Hl as ->. done.
Qed.

(** ** Naming *)

Lemma derive_names_inv (base_name : string) (n : names) :
  derive_names base_name = Ok n →
  let parts := Py.split base_name "_" in
  (5 ≤ length parts)%nat
  ∧ parts !! 1%nat = Some (parameter_code n)
  ∧ ∃ segment4 token parameterName,
      parts !! 4%nat = Some segment4
      ∧ last parts = Some token
      ∧ lookup_month_and_season_name !! token = Some (month_and_season n)
      ∧ lookup_dict_parameter !! parameter_code n = Some parameterName
      ∧ new_file_name n
        = parameterName +:+ "_" +:+ segment4 +:+ "_1991-2020_" +:+ month_and_season n.
Proof.
  intros Hrun parts. unfold derive_names in Hrun. fold parts in Hrun.
  unfold subscript in Hrun. revert Hrun.
  generalize lookup_month_and_season_name as months.
  generalize lookup_dict_parameter as parameters. intros parameters months.
  destruct (Py.getitem parts (-1)) as [token|] eqn:Hlast;
    cbn [mbind result_bind]; [|done].
  destruct (Py.getitem parts 1) as [code|] eqn:H1; cbn [mbind result_bind]; [|done].
  destruct (months !! token) as [mn|] eqn:Hm; cbn [mbind result_bind]; [|done].
  destruct (parameters !! code) as [pn|] eqn:Hp; cbn [mbind result_bind]; [|done].
  destruct (Py.getitem parts 4) as [seg4|] eqn:H4;
    cbn [mbind result_bind mret result_ret]; [|done].
  intros [= <-]. cbn [parameter_code month_and_season new_file_name].
  apply (getitem_Ok_lookup parts 1) in H1. apply (getitem_Ok_lookup parts 4) in H4.
  apply getitem_Ok_last in Hlast.
  split_and!; [|done|by exists seg4, token, pn].
  apply lookup_lt_Some in H4. lia.
Qed.

(** Whenever [derive_names] returns, the base name had at least five
    segments, segment 1 and the last segment were keys of their tables, and
    the name returned is built from the two table values and segment 4. *)
Theorem derive_names_sound (base_name : string) (n : names) :
  derive_names base_name = Ok n →
  let parts := Py.split base_name "_" in
  (5 ≤ length parts)%nat
  ∧ parts !! 1%nat = Some (parameter_code n)
  ∧ ∃ segment4 token parameterName,
      parts !! 4%nat = Some segment4
      ∧ last parts = Some token
      ∧ lookup_month_and_season_name !! token = Some (month_and_season n)
      ∧ lookup_dict_parameter !! parameter_code n = Some parameterName
      ∧ new_file_name n
        = parameterName +:+ "_" +:+ segment4 +:+ "_1991-2020_" +:+ month_and_season n.
Proof. apply derive_names_inv. Qed.

Lemma derive_names_sound_witness :
  (5 ≤ length (Py.split "g_00_x_y_500m_monthly1" "_"))%nat
  ∧ Py.split "g_00_x_y_500m_monthly1" "_" !! 1%nat = Some "00".
Proof.
  destruct (derive_names_sound "g_00_x_y_500m_monthly1"
              {| parameter_code := "00"; month_and_season := "January";
                 new_file_name := "Total-Rainfall_500m_1991-2020_January" |})
    as (Hlen & Hcode & _); [vm_compute; reflexivity|].
  split; [exact Hlen|exact Hcode].
Defined.

(** A base name with fewer than two segments fails on the subscript
    [parts[1]], before any table is consulted. *)
Theorem derive_names_no_underscore (base_name : string) :
  Py.split base_name "_" !! 1%nat = None →
  derive_names base_name = Raise IndexError.
Proof.
  intros H1. unfold derive_names.
  destruct (split_head base_name "_") as (w & ws & Hsplit).
  rewrite Hsplit in *. destruct ws as [|w' ws]; [|done]. reflexivity.
Qed.

Lemma derive_names_no_underscore_witness :
  derive_names "rainfall" = Raise IndexError.
Proof. apply derive_names_no_underscore. reflexivity. Defined.

(** ** Metadata emitter, on short names *)

(** A file name with fewer than three underscore-separated segments makes
    [create_json_file] fail on [components[2]]: [IndexError], and no
    document. *)
Theorem create_json_file_short_name `{os.path} {Extent number : Type}
    (reprojected_parts : Extent → list (list (number * number)))
    (now : datetime) (file_path prefix : string) (extent : Extent)
    (title label : string) :
  Py.split (os.basename file_path) "_" !! 2%nat = None →
  create_json_file reprojected_parts now file_path prefix extent title label
  = Raise IndexError.
Proof.
  intros H2. unfold create_json_file.
  destruct (split_head (os.basename file_path) "_") as (w & ws & Hsplit).
  rewrite Hsplit in *.
  change (Py.getitem (w :: ws) 0) with (Ok (A := string) w).
  cbn [mbind result_bind].
  pose proof (getitem_beyond (w :: ws) 2 H2) as E2. change (Z.of_nat 2) with 2 in E2.
  by rewrite E2.
Qed.

Lemma create_json_file_short_name_witness :
  create_json_file (number := Z) (λ _ : unit, []) date_obj_stop
    "/out/regions_grids/01/rainfall_Northland.tif" PREFIX () "Northland" "January"
  = Raise IndexError.
Proof. apply create_json_file_short_name. vm_compute. reflexivity. Defined.

(** ** The classifier keeps what it holds *)

(** A call never removes or reorders an entry and never shortens a list:
    each entry stays at its position with its list extended at the end, and
    keys stay distinct; with no ".asc" file under the input location the
    dictionary is left as it was. *)
Theorem parse_input_files_keeps_entries `{os.path} (fs : fs_tree)
    (input_location : string) (d : dict) :
  NoDup d.*1 →
  let d' := parse_input_files fs input_location d in
  NoDup d'.*1
  ∧ (∀ i k l, d !! i = Some (k, l) → ∃ added, d' !! i = Some (k, l ++ added))
  ∧ (asc_files fs input_location = [] → d' = d).
Proof.
  intros Hd d'. unfold d'. rewrite parse_input_files_from by done.
  split_and!.
  - rewrite fmap_app.
    assert (((λ kl : string * list string,
                (kl.1, kl.2 ++ group kl.1 (asc_files fs input_location))) <$> d).*1
            = d.*1) as ->.
    { rewrite <-list_fmap_compose. apply list_fmap_ext. by intros i [k l] _. }
    match goal with
    | |- NoDup (_ ++ (_ <$> ?K).*1) =>
        assert (((λ k, (k, group k (asc_files fs input_location))) <$> K).*1 = K) as ->
          by (rewrite <-list_fmap_compose; apply list_fmap_id)
    end.
    apply NoDup_app. split_and!; [done| |apply new_keys_NoDup].
    intros k Hk Hnew. apply new_keys_spec in Hnew as [_ Hnew]. done.
  - intros i k l Hi. exists (group k (asc_files fs input_location)).
    apply lookup_app_l_Some. rewrite list_lookup_fmap.
    unfold dict in *. by rewrite Hi.
  - intros ->. csimpl. rewrite app_nil_r. etrans; [|apply list_fmap_id].
    apply list_fmap_ext. intros i [k l] _. unfold group. csimpl.
    by rewrite app_nil_r.
Qed.

Lemma parse_input_files_keeps_entries_witness :
  ∃ added,
    parse_input_files demo_tree "/data" [("old", ["/elsewhere/old.asc"])] !! 0%nat
    = Some ("old", ["/elsewhere/old.asc"] ++ added).
Proof.
  destruct (parse_input_files_keeps_entries demo_tree "/data"
              [("old", ["/elsewhere/old.asc"])]) as (_ & Hkeep & _).
  - apply NoDup_singleton.
  - apply (Hkeep 0%nat). reflexivity.
Defined.

(** ** Strings: slices and searches *)

Lemma append_String (c : ascii) (a b : string) : String c a +:+ b = String c (a +:+ b).
Proof. reflexivity. Qed.

Lemma append_empty_l (b : string) : "" +:+ b = b.
Proof. reflexivity. Qed.

Lemma append_assoc (a b c : string) : (a +:+ b) +:+ c = a +:+ b +:+ c.
Proof.
  induction a as [|x a IH]; [done|]. by rewrite !append_String, IH.
Qed.

Lemma append_length (a b : string) :
  String.length (a +:+ b) = (String.length a + String.length b)%nat.
Proof.
  induction a as [|x a IH]; [done|].
  rewrite append_String. cbn [String.length]. by rewrite IH.
Qed.

Lemma drop_append (a b : string) : Py.drop (String.length a) (a +:+ b) = b.
Proof. induction a as [|x a IH]; [by destruct b|]. by rewrite append_String. Qed.

Lemma take_append (a b : string) : Py.take (String.length a) (a +:+ b) = a.
Proof.
  induction a as [|x a IH]; [by destruct b|].
  rewrite append_String. cbn [String.length Py.take]. by rewrite IH.
Qed.

Lemma take_drop (n : nat) (s : string) : Py.take n s +:+ Py.drop n s = s.
Proof.
  revert s. induction n as [|n IH]; intros [|c s]; try done.
  cbn [Py.take Py.drop]. by rewrite append_String, IH.
Qed.

Lemma contains_char_append (a b : string) (c : ascii) :
  Py.contains_char (a +:+ b) c = Py.contains_char a c || Py.contains_char b c.
Proof.
  induction a as [|x a IH]; [done|].
  rewrite append_String. cbn [Py.contains_char]. by rewrite IH, orb_assoc.
Qed.

Lemma contains_char_take (n : nat) (s : string) (c : ascii) :
  Py.contains_char s c = false → Py.contains_char (Py.take n s) c = false.
Proof.
  revert s. induction n as [|n IH]; intros [|x s]; try done.
  cbn [Py.take Py.contains_char]. intros [Hx Hs]%orb_false_iff.
  by rewrite Hx, IH.
Qed.

Lemma rfind_from_absent (i : Z) (s : string) (c : ascii) :
  Py.contains_char s c = false → Py.rfind_from i s c = -1.
Proof.
  revert i. induction s as [|x s IH]; intros i; [done|].
  cbn [Py.contains_char Py.rfind_from]. intros [Hx Hs]%orb_false_iff.
  by rewrite IH, Hx.
Qed.

Lemma rfind_from_last (i : Z) (a b : string) (c : ascii) :
  0 ≤ i → Py.contains_char b c = false →
  Py.rfind_from i (a +:+ String c b) c = i + Z.of_nat (String.length a).
Proof.
  intros Hi Hb. revert i Hi. induction a as [|x a IH]; intros i Hi.
  - rewrite append_empty_l. cbn [Py.rfind_from String.length].
    rewrite rfind_from_absent by done. rewrite Ascii.eqb_refl.
    change (0 <=? -1) with false. cbv iota. lia.
  - rewrite append_String. cbn [Py.rfind_from String.length].
    rewrite IH by lia.
    assert ((0 <=? i + 1 + Z.of_nat (String.length a)) = true) as ->
      by (apply Z.leb_le; lia).
    lia.
Qed.

(** A string that has [c] splits at its last [c]. *)
Lemma last_char_decompose (s : string) (c : ascii) :
  Py.contains_char s c = true →
  ∃ a b, s = a +:+ String c b ∧ Py.contains_char b c = false.
Proof.
  induction s as [|x s IH]; [done|]. cbn [Py.contains_char]. intros Hs.
  destruct (Py.contains_char s c) eqn:Htail.
  - destruct (IH eq_refl) as (a & b & -> & Hb). by exists (String x a), b.
  - rewrite orb_false_r in Hs. apply Ascii.eqb_eq in Hs as ->. by exists "", s.
Qed.

(** ** posixpath *)

Lemma posixpath_basename_plain (p : string) :
  Py.contains_char p "/" = false → posixpath.basename p = p.
Proof.
  intros Hp. unfold posixpath.basename, Py.rfind, posixpath.sep.
  by rewrite rfind_from_absent.
Qed.

Lemma posixpath_basename_append (a b : string) :
  Py.contains_char b "/" = false →
  posixpath.basename (a +:+ String "/" b) = b.
Proof.
  intros Hb. unfold posixpath.basename, Py.rfind, posixpath.sep.
  rewrite rfind_from_last by done.
  replace (Z.to_nat (0 + Z.of_nat (String.length a) + 1))
    with (String.length (a +:+ "/")) by (rewrite append_length; simpl; lia).
  replace (a +:+ String "/" b) with ((a +:+ "/") +:+ b) by (by rewrite append_assoc).
  apply drop_append.
Qed.

Lemma posixpath_basename_no_sep (p : string) :
  Py.contains_char (posixpath.basename p) "/" = false.
Proof.
  destruct (Py.contains_char p "/") eqn:Hp.
  - destruct (last_char_decompose _ _ Hp) as (a & b & -> & Hb).
    by rewrite posixpath_basename_append.
  - by rewrite posixpath_basename_plain.
Qed.

Lemma endswith_decompose (s suffix : string) :
  Py.endswith s suffix = true →
  s = Py.take (String.length s - String.length suffix) s +:+ suffix.
Proof.
  induction s as [|c s IH]; cbn [Py.endswith].
  - by destruct (String.eqb_spec "" suffix) as [<-|].
  - destruct (String.eqb_spec (String c s) suffix) as [<-|Hne].
    + intros _. by rewrite Nat.sub_diag.
    + intros Hs. pose proof (endswith_length _ _ Hs) as Hlen.
      cbn [String.length]. rewrite Nat.sub_succ_l by done.
      cbn [Py.take]. rewrite append_String. by rewrite <-IH.
Qed.

Lemma has_non_dot_scan (before a after : string) :
  posixpath.has_non_dot (before +:+ a +:+ after)
    (String.length before) (String.length a)
  = has_other_char a ".".
Proof.
  revert before. induction a as [|c a IH]; intros before; [done|].
  cbn [String.length posixpath.has_non_dot has_other_char Py.contains_char].
  rewrite drop_append, append_String. cbn [Py.take]. rewrite orb_false_r.
  replace (String.eqb (String c "") ".") with (Ascii.eqb "." c)
    by (cbn [String.eqb]; rewrite (Ascii.eqb_sym c "."); by destruct (Ascii.eqb "." c)).
  destruct (Ascii.eqb "." c); cbn [negb orb]; [|done].
  specialize (IH (before +:+ String c "")).
  rewrite append_length, Nat.add_1_r, append_assoc in IH. exact IH.
Qed.

(** [splitext] on a plain file name that ends in ".asc": the extension is
    split off unless everything before it is dots. *)
Lemma posixpath_splitext_asc (file : string) :
  Py.endswith file ".asc" = true →
  Py.contains_char file "/" = false →
  let name := Py.take (String.length file - 4) file in
  name +:+ ".asc" = file
  ∧ posixpath.splitext file
    = if has_other_char name "." then (name, ".asc") else (file, "").
Proof.
  intros Hasc Hsep name.
  assert (Hfile : file = name +:+ ".asc") by apply (endswith_decompose _ _ Hasc).
  clearbody name. subst file. split; [done|].
  unfold posixpath.splitext, Py.rfind, posixpath.sep.
  rewrite (rfind_from_absent 0 _ "/") by done.
  rewrite (rfind_from_last 0 name "asc" ".") by done.
  assert ((-1 <? 0 + Z.of_nat (String.length name)) = true) as ->
    by (apply Z.ltb_lt; lia).
  change (Z.to_nat (-1 + 1)) with 0%nat.
  replace (Z.to_nat (0 + Z.of_nat (String.length name) - (-1 + 1)))
    with (String.length name) by lia.
  replace (Z.to_nat (0 + Z.of_nat (String.length name)))
    with (String.length name) by lia.
  pose proof (has_non_dot_scan "" name ".asc") as Hscan.
  rewrite append_empty_l in Hscan. change (String.length "") with 0%nat in Hscan.
  rewrite Hscan. cbn [andb].
  destruct (has_other_char name "."); [|done].
  by rewrite take_append, drop_append.
Qed.

(** For a directory entry that ends in ".asc", the key the classifier
    records it under is the name without ".asc"; only a name that is
    nothing but dots before "asc" (".asc", "..asc") is recorded under its
    whole name. *)
Theorem classifier_key (root file : string) :
  Py.endswith file ".asc" = true →
  Py.contains_char file "/" = false →
  let name := Py.take (String.length file - 4) file in
  name +:+ ".asc" = file
  ∧ record_file root file []
    = [(if has_other_char name "." then name else file, [posixpath.join root file])].
Proof.
  intros Hasc Hsep name.
  destruct (posixpath_splitext_asc file Hasc Hsep) as [Hname Hsplit].
  split; [done|]. rewrite record_file_insert, Hasc. unfold stem.
  cbn [os.splitext os.join posixpath.flavour]. fold name in Hsplit. rewrite Hsplit.
  by destruct (has_other_char name ".").
Qed.

Lemma classifier_key_witness :
  record_file "/data/01" "g_00_x_y_500m_annual.asc" []
  = [("g_00_x_y_500m_annual", ["/data/01/g_00_x_y_500m_annual.asc"])].
Proof.
  destruct (classifier_key "/data/01" "g_00_x_y_500m_annual.asc") as [_ Hkey];
    [reflexivity..|].
  exact Hkey.
Defined.

Lemma take_all (s : string) : Py.take (String.length s) s = s.
Proof. induction s as [|c s IH]; [done|]. cbn [String.length Py.take]. by rewrite IH. Qed.

Lemma startswith_take (n : nat) (s : string) : Py.startswith s (Py.take n s) = true.
Proof.
  unfold Py.startswith. revert s. induction n as [|n IH]; intros [|c s]; try done.
  cbn [Py.take String.prefix]. by destruct (ascii_dec c c).
Qed.

Lemma posixpath_splitext_stem (p : string) :
  ∃ n, (posixpath.splitext p).1 = Py.take n p.
Proof.
  unfold posixpath.splitext.
  match goal with |- context [if ?b then _ else _] => destruct b end; [by eexists|].
  exists (String.length p). by rewrite take_all.
Qed.

Lemma posixpath_split_basename (p : string) :
  (posixpath.split p).2 = posixpath.basename p.
Proof. reflexivity. Qed.

Lemma startswith_sep_absent (s : string) :
  Py.contains_char s "/" = false → Py.startswith s "/" = false.
Proof.
  destruct s as [|c s]; [done|]. cbn [Py.contains_char]. intros [Hc _]%orb_false_iff.
  unfold Py.startswith. cbn [String.prefix].
  destruct (ascii_dec "/" c) as [<-|]; [|done]. by vm_compute in Hc.
Qed.

Lemma posixpath_join_zipped (name : string) :
  Py.contains_char name "/" = false →
  posixpath.join OUTPUT_FOLDER_ZIPPED name = OUTPUT_FOLDER_ZIPPED +:+ "/" +:+ name
  ∧ posixpath.basename (posixpath.join OUTPUT_FOLDER_ZIPPED name) = name.
Proof.
  intros Hname. unfold posixpath.join. rewrite startswith_sep_absent by done.
  replace (String.eqb OUTPUT_FOLDER_ZIPPED "" || Py.endswith OUTPUT_FOLDER_ZIPPED "/")
    with false by (vm_compute; reflexivity).
  split; [done|]. by apply posixpath_basename_append.
Qed.

(** ** Packaging and the raster itself *)

(** The clipped raster is in its own archive whenever the directory lists
    it, it is not a lock file and reading it raises nothing: its name
    starts with its own stem. *)
Theorem make_zip_contains_raster (write_error : string → option exn)
    (listdir : string → list string) (raster : string) :
  (∀ path e, write_error path = Some e → is_Exception e = true) →
  let base_clip_dir := (posixpath.split raster).1 in
  let base_clip_name := (posixpath.split raster).2 in
  base_clip_name ∈ listdir base_clip_dir →
  Py.endswith base_clip_name ".lock" = false →
  write_error (posixpath.join base_clip_dir base_clip_name) = None →
  ∃ zip_file_path members log,
    make_zip write_error listdir raster = Ok (zip_file_path, members, log)
    ∧ base_clip_name ∈ members.
Proof.
  intros Hexc dir name Hin Hlock Hread. unfold make_zip.
  cbn [os.split os.splitext os.join posixpath.flavour].
  subst dir name. destruct (posixpath.split raster) as [dir name]. cbn [fst snd] in *.
  destruct (posixpath.splitext name) as [stem' ext] eqn:Hext.
  rewrite (add_members_run write_error Hexc). cbn [mbind result_bind mret result_ret fst snd].
  eexists _, _, _. split; [reflexivity|].
  rewrite app_nil_l. apply list_elem_of_filter. split; [|done].
  split; [|exact Hread]. unfold wanted. rewrite Hlock.
  destruct (posixpath_splitext_stem name) as [n Hn]. rewrite Hext in Hn.
  cbn [fst] in Hn. subst stem'. by rewrite startswith_take.
Qed.

Lemma make_zip_contains_raster_witness :
  ∃ zip_file_path members log,
    make_zip (λ _, None) (λ _, ["a_b.tif.aux.xml"; "a_b.tif"; "a_b.tfw"]) "/out/01/a_b.tif"
    = Ok (zip_file_path, members, log)
    ∧ "a_b.tif" ∈ members.
Proof.
  apply (make_zip_contains_raster (λ _, None)
           (λ _, ["a_b.tif.aux.xml"; "a_b.tif"; "a_b.tfw"]) "/out/01/a_b.tif").
  - discriminate.
  - vm_compute. apply list_elem_of_further, list_elem_of_here.
  - reflexivity.
  - reflexivity.
Defined.

(** ** Archive, descriptor and their object keys *)

(** For one clipped raster, the archive and the descriptor are written side
    by side under the same stem, and with a prefix that has no slash at
    either end they are uploaded under [prefix/stem.zip] and
    [prefix/stem.json]; the descriptor's "src" is then "/" followed by the
    archive's object key. *)
Theorem metadata_src_is_archive_key {Extent number : Type}
    (write_error : string → option exn) (listdir : string → list string)
    (reprojected_parts : Extent → list (list (number * number)))
    (now : datetime) (raster prefix : string) (extent : Extent)
    (title label : string)
    (zip_file_path json_file_path : string) (members : archive)
    (log : list (string * exn)) (doc : json number) :
  make_zip write_error listdir raster = Ok (zip_file_path, members, log) →
  create_json_file reprojected_parts now raster prefix extent title label
  = Ok (json_file_path, doc) →
  prefix ≠ "" →
  Py.strip prefix "/" = prefix →
  ∃ stem,
    zip_file_path = OUTPUT_FOLDER_ZIPPED +:+ "/" +:+ stem +:+ ".zip"
    ∧ json_file_path = OUTPUT_FOLDER_ZIPPED +:+ "/" +:+ stem +:+ ".json"
    ∧ object_name zip_file_path (Some prefix) = prefix +:+ "/" +:+ stem +:+ ".zip"
    ∧ object_name json_file_path (Some prefix) = prefix +:+ "/" +:+ stem +:+ ".json"
    ∧ json_get "src" doc
      = Some (JString ("/" +:+ object_name zip_file_path (Some prefix))).
Proof.
  intros Hzip Hjson Hprefix Hstrip.
  set (stem := (posixpath.splitext (posixpath.basename raster)).1).
  assert (Hstem : Py.contains_char stem "/" = false).
  { unfold stem. destruct (posixpath_splitext_stem (posixpath.basename raster)) as [n ->].
    apply contains_char_take, posixpath_basename_no_sep. }
  assert (Hzipname : Py.contains_char (stem +:+ ".zip") "/" = false)
    by (by rewrite contains_char_append, Hstem).
  assert (Hjsonname : Py.contains_char (stem +:+ ".json") "/" = false)
    by (by rewrite contains_char_append, Hstem).
  destruct (posixpath_join_zipped _ Hzipname) as [Ezip Bzip].
  destruct (posixpath_join_zipped _ Hjsonname) as [Ejson Bjson].
  exists stem.
  assert (zip_file_path = posixpath.join OUTPUT_FOLDER_ZIPPED (stem +:+ ".zip")) as ->.
  { unfold make_zip in Hzip. cbn [os.split os.splitext os.join posixpath.flavour] in Hzip.
    pose proof (posixpath_split_basename raster) as Hbase. fold stem.
    destruct (posixpath.split raster) as [dir name]. cbn [snd] in Hbase. subst name.
    fold stem in Hzip. unfold stem.
    destruct (posixpath.splitext (posixpath.basename raster)) as [st ext].
    destruct (add_members _ _ _ _ _) as [st'|]; [|done].
    cbn [mbind result_bind mret result_ret fst] in *. by injection Hzip as <- _ _. }
  assert (Hdoc : json_file_path = posixpath.join OUTPUT_FOLDER_ZIPPED (stem +:+ ".json")
                 ∧ json_get "src" doc
                   = Some (JString ("/" +:+ prefix +:+ "/" +:+ stem +:+ ".zip"))).
  { unfold create_json_file in Hjson.
    cbn [os.split os.splitext os.join os.basename posixpath.flavour] in Hjson.
    fold stem in Hjson.
    destruct (Py.getitem (Py.split (posixpath.basename raster) "_") 0);
      cbn [mbind result_bind] in Hjson; [|done].
    destruct (Py.getitem (Py.split (posixpath.basename raster) "_") 2);
      cbn [mbind result_bind] in Hjson; [|done].
    destruct (Py.getitem (Py.split (posixpath.basename raster) "_") 1);
      cbn [mbind result_bind] in Hjson; [|done].
    destruct (Py.getitem (Py.split (posixpath.basename raster) "_") (-1)) as [l|];
      cbn [mbind result_bind] in Hjson; [|done].
    destruct (Py.getitem (Py.split l ".") 0);
      cbn [mbind result_bind mret result_ret] in Hjson; [|done].
    pose proof (posixpath_split_basename raster) as Hbase.
    destruct (posixpath.split raster) as [dir name]. cbn [snd] in Hbase. subst name.
    fold stem in Hjson. injection Hjson as <- <-. split; [done|].
    apply json_get_here. }
  destruct Hdoc as [-> Hsrc].
  rewrite !object_name_truthy by done.
  cbn [os.basename posixpath.flavour]. rewrite Hstrip, Bzip, Bjson.
  by split_and!.
Qed.

Lemma metadata_src_is_archive_key_witness :
  ∃ zip_file_path json_file_path (doc : json Z) stem,
    zip_file_path = OUTPUT_FOLDER_ZIPPED +:+ "/" +:+ stem +:+ ".zip"
    ∧ json_file_path = OUTPUT_FOLDER_ZIPPED +:+ "/" +:+ stem +:+ ".json"
    ∧ object_name zip_file_path (Some PREFIX) = PREFIX +:+ "/" +:+ stem +:+ ".zip"
    ∧ object_name json_file_path (Some PREFIX) = PREFIX +:+ "/" +:+ stem +:+ ".json"
    ∧ json_get "src" doc
      = Some (JString ("/" +:+ object_name zip_file_path (Some PREFIX))).
Proof.
  eexists _, _, _.
  eapply (metadata_src_is_archive_key (λ _, None) (λ _, []) (λ _ : unit, [])
            date_obj_stop demo_raster PREFIX () "Bay of Plenty" "January").
  - vm_compute. reflexivity.
  - vm_compute. reflexivity.
  - discriminate.
  - reflexivity.
Defined.

(** ** Splitting on one character *)

Lemma prefix_empty (s : string) : String.prefix "" s = true.
Proof. by destruct s. Qed.

Lemma split_char_cons (c x : ascii) (s : string) :
  Py.split (String x s) (String c "")
  = if Ascii.eqb x c then "" :: Py.split s (String c "")
    else match Py.split s (String c "") with
         | w :: ws => String x w :: ws
         | [] => [String x ""]
         end.
Proof.
  unfold Py.split. cbn [Py.split_from String.prefix String.length Nat.pred].
  rewrite prefix_empty. destruct (ascii_dec c x) as [<-|Hne].
  - by rewrite Ascii.eqb_refl.
  - destruct (Ascii.eqb_spec x c) as [->|]; [done|done].
Qed.

Lemma split_char_absent (c : ascii) (s : string) :
  Py.contains_char s c = false → Py.split s (String c "") = [s].
Proof.
  induction s as [|x s IH]; [done|]. cbn [Py.contains_char].
  intros [Hx Hs]%orb_false_iff. by rewrite split_char_cons, Hx, IH.
Qed.

Lemma split_char_append (c : ascii) (a b : string) :
  Py.contains_char a c = false →
  Py.split (a +:+ String c b) (String c "") = a :: Py.split b (String c "").
Proof.
  induction a as [|x a IH].
  - intros _. by rewrite append_empty_l, split_char_cons, Ascii.eqb_refl.
  - cbn [Py.contains_char]. intros [Hx Ha]%orb_false_iff.
    by rewrite append_String, split_char_cons, Hx, IH.
Qed.

(** No segment of a split on one character has that character. *)
Lemma split_char_parts (c : ascii) (s : string) :
  Forall (λ w, Py.contains_char w c = false) (Py.split s (String c "")).
Proof.
  induction s as [|x s IH]; [by repeat constructor|].
  rewrite split_char_cons. destruct (Ascii.eqb x c) eqn:Hx; [by constructor|].
  destruct (Py.split s (String c "")) as [|w ws].
  { repeat constructor. cbn [Py.contains_char]. by rewrite Hx. }
  apply Forall_cons in IH as [Hw Hws]. constructor; [|done].
  cbn [Py.contains_char]. by rewrite Hx, Hw.
Qed.

Lemma posixpath_basename_join (folder name : string) :
  Py.contains_char name "/" = false →
  posixpath.basename (posixpath.join folder name) = name.
Proof.
  intros Hname. unfold posixpath.join. rewrite startswith_sep_absent by done.
  destruct (String.eqb_spec folder "") as [->|_]; cbn [orb].
  - rewrite append_empty_l. by apply posixpath_basename_plain.
  - destruct (Py.endswith folder "/") eqn:Hend.
    + apply endswith_decompose in Hend. rewrite Hend, append_assoc.
      by apply posixpath_basename_append.
    + by apply posixpath_basename_append.
Qed.

(** The names in the two tables the product name is built from are free of
    the characters the later stages split on. *)
Lemma lookup_dict_parameter_plain (code parameterName : string) :
  lookup_dict_parameter !! code = Some parameterName →
  Py.contains_char parameterName "_" = false
  ∧ Py.contains_char parameterName "." = false
  ∧ Py.contains_char parameterName "/" = false.
Proof.
  revert code parameterName. change (map_Forall (λ _ v,
    Py.contains_char v "_" = false ∧ Py.contains_char v "." = false
    ∧ Py.contains_char v "/" = false) lookup_dict_parameter).
  apply (bool_decide_unpack _). vm_compute. exact I.
Qed.

Lemma lookup_month_and_season_name_plain (token periodName : string) :
  lookup_month_and_season_name !! token = Some periodName →
  Py.contains_char periodName "." = false
  ∧ Py.contains_char periodName "/" = false.
Proof.
  revert token periodName. change (map_Forall (λ _ v,
    Py.contains_char v "." = false ∧ Py.contains_char v "/" = false)
    lookup_month_and_season_name).
  apply (bool_decide_unpack _). vm_compute. exact I.
Qed.

(** ** From the grid's base name to the descriptor *)

(** What [create_json_file] writes for a file name whose first three
    segments are known. *)
Lemma create_json_file_run `{os.path} {Extent number : Type}
    (reprojected_parts : Extent → list (list (number * number)))
    (now : datetime) (file_path prefix : string) (extent : Extent)
    (title label seg0 seg1 seg2 : string) :
  Py.split (os.basename file_path) "_" !! 0%nat = Some seg0 →
  Py.split (os.basename file_path) "_" !! 1%nat = Some seg1 →
  Py.split (os.basename file_path) "_" !! 2%nat = Some seg2 →
  ∃ doc,
    create_json_file reprojected_parts now file_path prefix extent title label
    = Ok (os.join OUTPUT_FOLDER_ZIPPED
            ((os.splitext (os.split file_path).2).1 +:+ ".json"), doc)
    ∧ metadata_get "parameter" doc = Some (JString (dashes_to_spaces seg0))
    ∧ metadata_get "statistic" doc = Some (JString seg1)
    ∧ metadata_get "period" doc = Some (JString label)
    ∧ metadata_get "region" doc = Some (JString title)
    ∧ metadata_get "title" doc
      = Some (JString ("Climatology Grid " +:+ dashes_to_spaces seg0
                        +:+ " (1991-2020), " +:+ label +:+ ", Region: " +:+ title))
    ∧ metadata_get "description" doc
      = Some (JString (
          "This dataset comprises a 500m resolution grid of climatologic normals (averages) for: Parameter: "
          +:+ dashes_to_spaces seg0 +:+ "; Statistic: " +:+ seg1
          +:+ "; Period: " +:+ seg2 +:+ "; " +:+ label
          +:+ "; Region: " +:+ title)).
Proof.
  intros H0 H1 H2.
  destruct (components_subscripts _ _ _ _ H0 H1 H2)
    as (E0 & E2 & E1 & last & region & Elast & Eregion).
  unfold create_json_file.
  rewrite E0. cbn [mbind result_bind]. rewrite E2. cbn [mbind result_bind].
  rewrite E1. cbn [mbind result_bind]. rewrite Elast. cbn [mbind result_bind].
  rewrite Eregion. cbn [mbind result_bind mret result_ret].
  destruct (os.split file_path) as [base_json_dir base_json_file_name].
  eexists. split; [reflexivity|]. split_and!; reflexivity.
Qed.

(** End to end, on POSIX paths.  For a grid whose base name
    [derive_names] accepts and whose segment 4 has neither a dot nor a
    slash, the clipped raster of a region is named
    [{new_file_name}_{region_name}.tif], and the descriptor written for it
    says: parameter, the table's parameter name with spaces for dashes;
    statistic, segment 4 of the base name; period, the table's period name;
    and, in the description, "Period: 1991-2020". *)
Theorem pipeline_metadata_fields {Extent number : Type}
    (reprojected_parts : Extent → list (list (number * number)))
    (now : datetime) (base_name segment4 folder region_name prefix : string)
    (extent : Extent) (title : string) (n : names) :
  derive_names base_name = Ok n →
  Py.split base_name "_" !! 4%nat = Some segment4 →
  Py.contains_char segment4 "." = false →
  Py.contains_char segment4 "/" = false →
  Py.contains_char region_name "/" = false →
  let raster :=
    posixpath.join folder (new_file_name n +:+ "_" +:+ region_name +:+ ".tif") in
  ∃ parameterName json_file_path doc,
    lookup_dict_parameter !! parameter_code n = Some parameterName
    ∧ output_clipped_raster folder (new_file_name n) region_name = Ok raster
    ∧ create_json_file reprojected_parts now raster prefix extent title
        (month_and_season n)
      = Ok (json_file_path, doc)
    ∧ metadata_get "parameter" doc = Some (JString (dashes_to_spaces parameterName))
    ∧ metadata_get "statistic" doc = Some (JString segment4)
    ∧ metadata_get "period" doc = Some (JString (month_and_season n))
    ∧ metadata_get "region" doc = Some (JString title)
    ∧ metadata_get "description" doc
      = Some (JString (
          "This dataset comprises a 500m resolution grid of climatologic normals (averages) for: Parameter: "
          +:+ dashes_to_spaces parameterName +:+ "; Statistic: " +:+ segment4
          +:+ "; Period: " +:+ "1991-2020" +:+ "; " +:+ month_and_season n
          +:+ "; Region: " +:+ title)).
Proof.
  intros Hrun H4 Hdot Hslash Hregion raster.
  destruct (derive_names_inv _ _ Hrun)
    as (_ & _ & seg4 & token & pn & H4' & _ & Hmonth & Hparam & Hname).
  rewrite H4 in H4'. injection H4' as <-.
  destruct (lookup_dict_parameter_plain _ _ Hparam) as (Hpn_ & Hpn_dot & Hpn_slash).
  destruct (lookup_month_and_season_name_plain _ _ Hmonth) as (Hmn_dot & Hmn_slash).
  assert (Hseg_ : Py.contains_char segment4 "_" = false).
  { pose proof (split_char_parts "_" base_name) as Hparts.
    rewrite Forall_lookup in Hparts. exact (Hparts _ _ H4). }
  set (mn := month_and_season n) in *. set (nf := new_file_name n) in *.
  assert (Hnf_dot : Py.contains_char nf "." = false).
  { rewrite Hname, !contains_char_append, Hpn_dot, Hdot, Hmn_dot. reflexivity. }
  assert (Hnf_slash : Py.contains_char nf "/" = false).
  { rewrite Hname, !contains_char_append, Hpn_slash, Hslash, Hmn_slash. reflexivity. }
  set (name := nf +:+ "_" +:+ region_name +:+ ".tif") in *.
  assert (Hname_slash : Py.contains_char name "/" = false).
  { unfold name. rewrite !contains_char_append, Hnf_slash, Hregion. reflexivity. }
  assert (Hbase : posixpath.basename raster = name)
    by (by apply posixpath_basename_join).
  assert (Hcomponents : ∃ rest, Py.split name "_"
                                = pn :: segment4 :: "1991-2020" :: rest).
  { unfold name. rewrite Hname, !append_assoc.
    change ("_" +:+ segment4 +:+ "_1991-2020_" +:+ mn +:+ "_" +:+ region_name +:+ ".tif")
      with (String "_" (segment4 +:+ String "_" ("1991-2020" +:+
              String "_" (mn +:+ "_" +:+ region_name +:+ ".tif")))).
    rewrite (split_char_append "_" pn) by done.
    rewrite (split_char_append "_" segment4) by done.
    rewrite (split_char_append "_" "1991-2020") by done.
    eauto. }
  destruct Hcomponents as [rest Hcomponents].
  destruct (create_json_file_run reprojected_parts now raster prefix extent
              title mn pn segment4 "1991-2020")
    as (doc & Hdoc & Hp & Hs & Hperiod & Hr & _ & Hdesc).
  { cbn [os.basename posixpath.flavour]. by rewrite Hbase, Hcomponents. }
  { cbn [os.basename posixpath.flavour]. by rewrite Hbase, Hcomponents. }
  { cbn [os.basename posixpath.flavour]. by rewrite Hbase, Hcomponents. }
  exists pn. eexists _, doc. split_and!; [done| |exact Hdoc|done..].
  unfold output_clipped_raster. rewrite (split_char_absent "." nf) by done.
  reflexivity.
Qed.

Lemma pipeline_metadata_fields_witness :
  ∃ parameterName json_file_path (doc : json Z),
    lookup_dict_parameter !! "00" = Some parameterName
    ∧ output_clipped_raster "/out/regions_grids/01"
        "Total-Rainfall_500m_1991-2020_January" "Bay-Of-Plenty"
      = Ok demo_raster
    ∧ create_json_file (λ _ : unit, []) date_obj_stop demo_raster PREFIX ()
        "Bay of Plenty" "January"
      = Ok (json_file_path, doc)
    ∧ metadata_get "parameter" doc = Some (JString (dashes_to_spaces parameterName))
    ∧ metadata_get "statistic" doc = Some (JString "500m")
    ∧ metadata_get "period" doc = Some (JString "January").
Proof.
  destruct (pipeline_metadata_fields (number := Z) (λ _ : unit, []) date_obj_stop
              "g_00_x_y_500m_monthly1" "500m" "/out/regions_grids/01"
              "Bay-Of-Plenty" PREFIX () "Bay of Plenty"
              {| parameter_code := "00"; month_and_season := "January";
                 new_file_name := "Total-Rainfall_500m_1991-2020_January" |})
    as (pn & jpath & doc & Hpn & Hraster & Hdoc & Hp & Hs & Hperiod & _);
    [vm_compute; reflexivity..|].
  exists pn, jpath, doc.
  split_and!; [exact Hpn|exact Hraster|exact Hdoc|exact Hp|exact Hs|exact Hperiod].
Defined.

(** ** The main loop *)

Section ProcessFacts.
Context `{os.path} {Extent number : Type}.
Variable external_error : event number → option exn.
Variable cursor_rows : list (string * string * Extent).
Variable listdir : string → list string.
Variable write_error : string → option exn.
Variable reprojected_parts : Extent → list (list (number * number)).
Variable clock : nat → datetime.

Lemma same_but_outcome_refl (ev : event number) : same_but_outcome ev ev.
Proof. by destruct ev. Qed.

Lemma agree_refl {A} (m : run number A) : agree m m.
Proof.
  intros t. split; [|done]. apply Forall_Forall2_diag, Forall_forall.
  intros ev _. apply same_but_outcome_refl.
Qed.

Lemma agree_bind {A B} (m m' : run number A) (f f' : A → run number B) :
  agree m m' → (∀ a, agree (f a) (f' a)) → agree (run_bind m f) (run_bind m' f').
Proof.
  intros Hm Hf t. unfold run_bind. destruct (Hm t) as [Htr Hres].
  destruct (m t) as [tr [[a t1]|e]], (m' t) as [tr' [[a' t1']|e']];
    cbn [fst snd] in *; try done.
  - injection Hres as <- <-. destruct (Hf a t1) as [Htr2 Hres2].
    destruct (f a t1) as [tr2 r2], (f' a t1) as [tr2' r2']. cbn [fst snd] in *.
    split; [by apply Forall2_app|done].
  - split; [done|congruence].
Qed.

Lemma agree_for_each {A} (l : list A) (body body' : A → run number unit) :
  (∀ x, agree (body x) (body' x)) → agree (for_each l body) (for_each l body').
Proof.
  intros Hbody. induction l as [|x l IH]; cbn [for_each]; [apply agree_refl|].
  apply agree_bind; [apply Hbody|]. by intros _.
Qed.

Lemma upload_file_returns (s3 : option s3_resource)
    (file_path bucket_name : string) (prefix : option string) :
  upload_safe s3 → ∃ uploaded, upload_file s3 file_path bucket_name prefix = Ok uploaded.
Proof.
  intros Hsafe. unfold upload_file. destruct s3 as [r|]; [|by exists false].
  destruct (Bucket_upload_file r bucket_name file_path _) as [[]|e] eqn:Hcall;
    [by exists true|].
  rewrite (Hsafe r _ _ _ e eq_refl Hcall). by exists false.
Qed.

Lemma agree_upload_step (s3 s3' : option s3_resource) (file_path bucket_name prefix : string) :
  upload_safe s3 → upload_safe s3' →
  agree (upload_step (number := number) s3 file_path bucket_name prefix)
        (upload_step s3' file_path bucket_name prefix).
Proof.
  intros Hs Hs' t. unfold upload_step, run_bind, lift, emit.
  destruct (upload_file_returns s3 file_path bucket_name (Some prefix) Hs) as [b ->].
  destruct (upload_file_returns s3' file_path bucket_name (Some prefix) Hs') as [b' ->].
  cbn [fst snd app]. split; [|done]. by repeat constructor.
Qed.

Lemma agree_process_files (s3 s3' : option s3_resource) (d : dict)
    (bucket_name prefix : string) :
  upload_safe s3 → upload_safe s3' →
  agree (process_files_in_ascdict external_error cursor_rows listdir write_error
           reprojected_parts clock s3 d bucket_name prefix)
        (process_files_in_ascdict external_error cursor_rows listdir write_error
           reprojected_parts clock s3' d bucket_name prefix).
Proof.
  intros Hs Hs'. unfold process_files_in_ascdict.
  apply agree_for_each. intros [base_name file_list].
  apply agree_for_each. intros file_path. unfold process_file.
  repeat (apply agree_bind; [apply agree_refl|intros ?]).
  apply agree_for_each. intros row. unfold process_row.
  apply agree_bind; [apply agree_refl|]. intros [[region_name title]|];
    [|apply agree_refl].
  repeat first
    [ apply agree_upload_step; assumption
    | apply agree_bind; [first [apply agree_upload_step; assumption|apply agree_refl]|intros ?] ].
Qed.

End ProcessFacts.

(** Uploading never changes what a run does locally.  With two storage
    clients whose failures are [Exception]s (a client that is absent, one
    that fails, one that works), the two runs cause the same events in the
    same order, upload attempts included, differing at most in the outcomes
    of the uploads, and end the same way: both complete, or both stop on
    the same exception. *)
Theorem uploads_do_not_disturb `{os.path} {Extent number : Type}
    (external_error : event number → option exn)
    (cursor_rows : list (string * string * Extent))
    (listdir : string → list string) (write_error : string → option exn)
    (reprojected_parts : Extent → list (list (number * number)))
    (clock : nat → datetime) (s3 s3' : option s3_resource)
    (ascfile_dict : dict) (COMPANY_bucket_data_hub prefix : string) (t : nat) :
  upload_safe s3 → upload_safe s3' →
  let r := process_files_in_ascdict external_error cursor_rows listdir write_error
             reprojected_parts clock s3 ascfile_dict COMPANY_bucket_data_hub prefix t in
  let r' := process_files_in_ascdict external_error cursor_rows listdir write_error
              reprojected_parts clock s3' ascfile_dict COMPANY_bucket_data_hub prefix t in
  Forall2 same_but_outcome r.1 r'.1 ∧ r.2 = r'.2.
Proof. intros Hs Hs' r r'. by apply agree_process_files. Qed.

Lemma uploads_do_not_disturb_witness :
  (process_files_in_ascdict (number := Z) (λ _, None)
     [("01", "Northland Region", ()); ("99", "Area Outside Region", ())]
     (λ _, ["Total-Rainfall_500m_1991-2020_January_Northland.tif"])
     (λ _, None) (λ _ : unit, []) (λ _, date_obj_stop)
     (Some {| Bucket_upload_file := λ _ _ _, Ok () |})
     [("g_00_x_y_500m_monthly1", ["/data/01/g_00_x_y_500m_monthly1.asc"])]
     COMPANY_BUCKET_DATA_HUB PREFIX 0%nat).2
  = (process_files_in_ascdict (number := Z) (λ _, None)
       [("01", "Northland Region", ()); ("99", "Area Outside Region", ())]
       (λ _, ["Total-Rainfall_500m_1991-2020_January_Northland.tif"])
       (λ _, None) (λ _ : unit, []) (λ _, date_obj_stop)
       None
       [("g_00_x_y_500m_monthly1", ["/data/01/g_00_x_y_500m_monthly1.asc"])]
       COMPANY_BUCKET_DATA_HUB PREFIX 0%nat).2.
Proof.
  assert (Hsafe : upload_safe (Some {| Bucket_upload_file := λ _ _ _, Ok () |})).
  { intros r b f k e [= <-]. discriminate. }
  assert (Hnone : upload_safe None).
  { intros r b f k e. discriminate. }
  exact (proj2 (uploads_do_not_disturb (number := Z) (λ _, None)
           [("01", "Northland Region", ()); ("99", "Area Outside Region", ())]
           (λ _, ["Total-Rainfall_500m_1991-2020_January_Northland.tif"])
           (λ _, None) (λ _ : unit, []) (λ _, date_obj_stop)
           (Some {| Bucket_upload_file := λ _ _ _, Ok () |}) None
           [("g_00_x_y_500m_monthly1", ["/data/01/g_00_x_y_500m_monthly1.asc"])]
           COMPANY_BUCKET_DATA_HUB PREFIX 0%nat Hsafe Hnone)).
Defined.

(** A grid whose base name the name derivation rejects stops the run at
    once: its region folder has been created, nothing has been converted,
    and neither the remaining files of the group nor the remaining groups
    are touched. *)
Theorem process_stops_at_bad_name `{os.path} {Extent number : Type}
    (external_error : event number → option exn)
    (cursor_rows : list (string * string * Extent))
    (listdir : string → list string) (write_error : string → option exn)
    (reprojected_parts : Extent → list (list (number * number)))
    (clock : nat → datetime) (s3 : option s3_resource)
    (base_name file_path : string) (files : list string) (groups : dict)
    (COMPANY_bucket_data_hub prefix : string) (t : nat) (e : exn) :
  derive_names base_name = Raise e →
  let folder := os.join OUTPUT_FOLDER_REGIONS (os.basename (os.dirname file_path)) in
  external_error (MakeDirs folder) = None →
  process_files_in_ascdict external_error cursor_rows listdir write_error
    reprojected_parts clock s3 ((base_name, file_path :: files) :: groups)
    COMPANY_bucket_data_hub prefix t
  = ([MakeDirs folder], Raise e).
Proof.
  intros Hname folder Hdirs. unfold process_files_in_ascdict.
  cbn [for_each fst snd]. unfold run_bind at 1. unfold run_bind at 1.
  unfold process_file. fold folder. unfold run_bind at 1, call.
  rewrite Hdirs. unfold run_bind at 1, lift. by rewrite Hname.
Qed.

Lemma process_stops_at_bad_name_witness :
  process_files_in_ascdict (number := Z) (λ _, None)
    [("01", "Northland Region", ())] (λ _, []) (λ _, None)
    (λ _ : unit, []) (λ _, date_obj_stop) None
    [("g_77_x_y_500m_annual", ["/data/01/g_77_x_y_500m_annual.asc"; "/data/02/g_77_x_y_500m_annual.asc"]);
     ("g_00_x_y_500m_annual", ["/data/01/g_00_x_y_500m_annual.asc"])]
    COMPANY_BUCKET_DATA_HUB PREFIX 0%nat
  = ([MakeDirs (os.join OUTPUT_FOLDER_REGIONS
                  (os.basename (os.dirname "/data/01/g_77_x_y_500m_annual.asc")))],
     Raise (KeyError "77")).
Proof.
  apply (process_stops_at_bad_name (number := Z) (λ _, None)
           [("01", "Northland Region", ())] (λ _, []) (λ _, None)
           (λ _ : unit, []) (λ _, date_obj_stop) None
           "g_77_x_y_500m_annual" "/data/01/g_77_x_y_500m_annual.asc").
  - vm_compute. reflexivity.
  - reflexivity.
Defined.

(** ** Completed runs *)

Section ProcessCounts.
Context `{os.path} {Extent number : Type}.
Variable external_error : event number → option exn.
Variable cursor_rows : list (string * string * Extent).
Variable listdir : string → list string.
Variable write_error : string → option exn.
Variable reprojected_parts : Extent → list (list (number * number)).
Variable clock : nat → datetime.

Lemma count_events_app (p : event number → bool) (tr tr' : list (event number)) :
  count_events p (tr ++ tr') = (count_events p tr + count_events p tr')%nat.
Proof. unfold count_events. by rewrite filter_app, length_app. Qed.

Lemma run_bind_Ok {A B} (m : run number A) (f : A → run number B) t tr b t2 :
  run_bind m f t = (tr, Ok (b, t2)) →
  ∃ tr1 a t1 tr2, m t = (tr1, Ok (a, t1)) ∧ f a t1 = (tr2, Ok (b, t2))
                  ∧ tr = tr1 ++ tr2.
Proof.
  unfold run_bind. destruct (m t) as [tr1 [[a t1]|e]]; [|done].
  destruct (f a t1) as [tr2 r] eqn:Hf. intros [= <- ->]. by exists tr1, a, t1, tr2.
Qed.

Lemma lift_Ok {A} (r : result A) t tr a t' :
  lift (number := number) r t = (tr, Ok (a, t')) → r = Ok a ∧ tr = [] ∧ t' = t.
Proof. unfold lift. destruct r; [|done]. by intros [= <- <- <-]. Qed.

Lemma emit_Ok (ev : event number) t tr u t' :
  emit ev t = (tr, Ok (u, t')) → tr = [ev] ∧ t' = t.
Proof. unfold emit. by intros [= <- <-]. Qed.

Lemma call_Ok (ev : event number) t tr u t' :
  call external_error ev t = (tr, Ok (u, t')) → tr = [ev] ∧ t' = t.
Proof. unfold call. destruct (external_error ev); [done|]. by intros [= <- <-]. Qed.

Lemma datetime_now_Ok t tr now t' :
  datetime_now (number := number) clock t = (tr, Ok (now, t')) → tr = [] ∧ t' = S t.
Proof. unfold datetime_now. by intros [= <- _ <-]. Qed.

Lemma upload_step_Ok s3 file_path bucket_name prefix t tr u t' :
  upload_step (number := number) s3 file_path bucket_name prefix t = (tr, Ok (u, t')) →
  ∃ uploaded,
    tr = [Upload file_path bucket_name (object_name file_path (Some prefix)) uploaded]
    ∧ t' = t.
Proof.
  unfold upload_step. intros (tr1 & b & t1 & tr2 & H1 & H2 & ->)%run_bind_Ok.
  apply lift_Ok in H1 as (_ & -> & ->). apply emit_Ok in H2 as (-> & ->).
  by exists b.
Qed.

(** One row of a completed run: nothing for code "99", otherwise one
    archive, one descriptor, two upload attempts and one clock reading. *)
Lemma process_row_Ok s3 bucket_name prefix folder name label output_raster row t tr u t' :
  process_row external_error listdir write_error reprojected_parts clock
    s3 bucket_name prefix folder name label output_raster row t
  = (tr, Ok (u, t')) →
  let k := if String.eqb row.1.1 "99" then 0%nat else 1%nat in
  count_events is_zip tr = k ∧ count_events is_json tr = k
  ∧ count_events is_upload tr = (2 * k)%nat ∧ t' = (t + k)%nat.
Proof.
  unfold process_row. intros (tr1 & region & t1 & tr2 & H1 & H2 & ->)%run_bind_Ok.
  apply lift_Ok in H1 as (Hregion & -> & ->).
  unfold region_of_row in Hregion. cbn [fst snd] in Hregion.
  destruct (String.eqb row.1.1 "99").
  - injection Hregion as <-. injection H2 as <- <-. cbn. by rewrite Nat.add_0_r.
  - destruct region as [[region_name region_title]|].
    2:{ destruct (subscript lookup_dict_region row.1.1); [|done].
        cbn [mbind result_bind] in Hregion.
        by destruct (region_title row.1.2). }
    clear Hregion.
    apply run_bind_Ok in H2 as (trA & out & tA & tr' & HA & H2 & ->).
    apply lift_Ok in HA as (_ & -> & ->).
    apply run_bind_Ok in H2 as (trB & ? & tB & tr'' & HB & H2 & ->).
    apply call_Ok in HB as (-> & ->).
    apply run_bind_Ok in H2 as (trC & zipped & tC & tr3 & HC & H2 & ->).
    apply lift_Ok in HC as (_ & -> & ->).
    apply run_bind_Ok in H2 as (trD & ? & tD & tr4 & HD & H2 & ->).
    apply emit_Ok in HD as (-> & ->).
    apply run_bind_Ok in H2 as (trE & ? & tE & tr5 & HE & H2 & ->).
    apply upload_step_Ok in HE as (b1 & -> & ->).
    apply run_bind_Ok in H2 as (trF & now & tF & tr6 & HF & H2 & ->).
    apply datetime_now_Ok in HF as (-> & ->).
    apply run_bind_Ok in H2 as (trG & md & tG & tr7 & HG & H2 & ->).
    apply lift_Ok in HG as (_ & -> & ->).
    apply run_bind_Ok in H2 as (trH & ? & tH & tr8 & HH & H2 & ->).
    apply emit_Ok in HH as (-> & ->).
    apply upload_step_Ok in H2 as (b2 & -> & ->).
    cbn. split_and!; [done..|lia].
Qed.

Lemma for_each_Ok {A} (l : list A) (body : A → run number unit)
    (p : event number → bool) (c dt : A → nat) :
  (∀ x t tr u t', body x t = (tr, Ok (u, t')) →
     count_events p tr = c x ∧ t' = (t + dt x)%nat) →
  ∀ t tr u t', for_each l body t = (tr, Ok (u, t')) →
    count_events p tr = sum_list_with c l ∧ t' = (t + sum_list_with dt l)%nat.
Proof.
  intros Hbody. induction l as [|x l IH]; intros t tr u t'; cbn [for_each sum_list_with].
  - intros [= <- <-]. split; [done|lia].
  - intros (tr1 & ? & t1 & tr2 & H1 & H2 & ->)%run_bind_Ok.
    apply Hbody in H1 as [Hc ->]. apply IH in H2 as [Hc' ->].
    rewrite count_events_app, Hc, Hc'. split; [done|lia].
Qed.

Lemma sum_clipped_rows (rows : list (string * string * Extent)) :
  sum_list_with (λ row, if String.eqb row.1.1 "99" then 0%nat else 1%nat) rows
  = length (clipped_rows rows).
Proof.
  unfold clipped_rows. induction rows as [|row rows IH]; [done|].
  cbn [sum_list_with]. rewrite IH. destruct (String.eqb_spec row.1.1 "99") as [Heq|Hne].
  - by rewrite filter_cons_False by (by intros ?).
  - by rewrite filter_cons_True.
Qed.

Lemma sum_scaled {A} (f : A → nat) (l : list A) (k : nat) :
  sum_list_with (λ x, (f x * k)%nat) l = (sum_list_with f l * k)%nat.
Proof. induction l as [|x l IH]; [done|]. cbn [sum_list_with]. rewrite IH. lia. Qed.

Lemma count_events_one (p : event number → bool) (ev : event number) :
  count_events p [ev] = if p ev then 1%nat else 0%nat.
Proof.
  unfold count_events. destruct (p ev) eqn:Hp.
  - by rewrite filter_cons_True.
  - by rewrite filter_cons_False by (by rewrite Hp).
Qed.

Lemma sum_constant {A} (l : list A) (k : nat) :
  sum_list_with (λ _, k) l = (length l * k)%nat.
Proof. induction l as [|x l IH]; [done|]. cbn [sum_list_with length]. rewrite IH. lia. Qed.

Lemma sum_groups (d : dict) (k : nat) :
  sum_list_with (λ group : string * list string, (length group.2 * k)%nat) d
  = (length (concat d.*2) * k)%nat.
Proof.
  induction d as [|[b fl] d IH]; [done|]. csimpl.
  rewrite IH, length_app. lia.
Qed.

(** One file of a completed run, for a way of counting that ignores
    folders, conversions and clips. *)
Lemma process_file_Ok (p : event number → bool) (per_row : nat)
    s3 bucket_name prefix base_name file_path t tr u t' :
  (∀ path, p (MakeDirs path) = false) →
  (∀ a b, p (CopyRaster a b) = false) →
  (∀ a, p (DefineProjection a) = false) →
  (∀ folder name label output_raster row t tr u t',
     process_row external_error listdir write_error reprojected_parts clock
       s3 bucket_name prefix folder name label output_raster row t
     = (tr, Ok (u, t')) →
     count_events p tr
     = ((if String.eqb row.1.1 "99" then 0 else 1) * per_row)%nat) →
  process_file external_error cursor_rows listdir write_error reprojected_parts
    clock s3 bucket_name prefix base_name file_path t
  = (tr, Ok (u, t')) →
  count_events p tr = (length (clipped_rows cursor_rows) * per_row)%nat
  ∧ t' = (t + length (clipped_rows cursor_rows))%nat.
Proof.
  intros Hdirs Hcopy Hdef Hrow. unfold process_file.
  intros (trA & ? & tA & tr1 & HA & H2 & ->)%run_bind_Ok.
  apply call_Ok in HA as (-> & ->).
  apply run_bind_Ok in H2 as (trB & n & tB & tr2 & HB & H2 & ->).
  apply lift_Ok in HB as (_ & -> & ->).
  apply run_bind_Ok in H2 as (trC & ? & tC & tr3 & HC & H2 & ->).
  apply call_Ok in HC as (-> & ->).
  apply run_bind_Ok in H2 as (trD & ? & tD & tr4 & HD & H2 & ->).
  apply call_Ok in HD as (-> & ->).
  eapply (for_each_Ok _ _ p
            (λ row, ((if String.eqb row.1.1 "99" then 0 else 1) * per_row)%nat)
            (λ row, if String.eqb row.1.1 "99" then 0%nat else 1%nat)) in H2.
  2:{ intros row t0 tr0 u0 t0' Hrun. split; [by eapply Hrow|].
      by apply process_row_Ok in Hrun as (_ & _ & _ & ->). }
  destruct H2 as [Hcount ->]. rewrite sum_clipped_rows. split; [|done].
  rewrite !count_events_app, !count_events_one, Hdirs, Hcopy, Hdef, Hcount.
  rewrite sum_scaled, sum_clipped_rows.
  change (count_events p []) with 0%nat. lia.
Qed.

Lemma process_files_Ok (p : event number → bool) (per_row : nat)
    s3 (d : dict) bucket_name prefix t tr u t' :
  (∀ path, p (MakeDirs path) = false) →
  (∀ a b, p (CopyRaster a b) = false) →
  (∀ a, p (DefineProjection a) = false) →
  (∀ folder name label output_raster row t tr u t',
     process_row external_error listdir write_error reprojected_parts clock
       s3 bucket_name prefix folder name label output_raster row t
     = (tr, Ok (u, t')) →
     count_events p tr
     = ((if String.eqb row.1.1 "99" then 0 else 1) * per_row)%nat) →
  process_files_in_ascdict external_error cursor_rows listdir write_error
    reprojected_parts clock s3 d bucket_name prefix t
  = (tr, Ok (u, t')) →
  count_events p tr
  = (length (concat d.*2) * (length (clipped_rows cursor_rows) * per_row))%nat
  ∧ t' = (t + length (concat d.*2) * length (clipped_rows cursor_rows))%nat.
Proof.
  intros Hdirs Hcopy Hdef Hrow Hrun. unfold process_files_in_ascdict in Hrun.
  eapply (for_each_Ok _ _ p
            (λ group : string * list string,
               (length group.2 * (length (clipped_rows cursor_rows) * per_row))%nat)
            (λ group : string * list string,
               (length group.2 * length (clipped_rows cursor_rows))%nat)) in Hrun.
  - by rewrite !sum_groups in Hrun.
  - intros [base_name file_list] t0 tr0 u0 t0' Hgroup. cbn [fst snd] in *.
    eapply (for_each_Ok _ _ p
              (λ _, (length (clipped_rows cursor_rows) * per_row)%nat)
              (λ _, length (clipped_rows cursor_rows))) in Hgroup.
    + by rewrite !sum_constant in Hgroup.
    + intros file_path t1 tr1 u1 t1' Hfile. by eapply process_file_Ok.
Qed.

End ProcessCounts.

(** A run that completes has written exactly one archive and one
    descriptor, made two upload attempts and read the clock once for every
    pair of an input file and a cursor row whose code is not "99". *)
Theorem completed_run_products `{os.path} {Extent number : Type}
    (external_error : event number → option exn)
    (cursor_rows : list (string * string * Extent))
    (listdir : string → list string) (write_error : string → option exn)
    (reprojected_parts : Extent → list (list (number * number)))
    (clock : nat → datetime) (s3 : option s3_resource)
    (ascfile_dict : dict) (COMPANY_bucket_data_hub prefix : string)
    (t t' : nat) (tr : list (event number)) :
  process_files_in_ascdict external_error cursor_rows listdir write_error
    reprojected_parts clock s3 ascfile_dict COMPANY_bucket_data_hub prefix t
  = (tr, Ok ((), t')) →
  let products :=
    (length (concat ascfile_dict.*2) * length (clipped_rows cursor_rows))%nat in
  count_events is_zip tr = products
  ∧ count_events is_json tr = products
  ∧ count_events is_upload tr = (2 * products)%nat
  ∧ t' = (t + products)%nat.
Proof.
  intros Hrun products. split_and!.
  - eapply (process_files_Ok _ _ _ _ _ _ is_zip 1) in Hrun as [-> _]; try done.
    + unfold products. lia.
    + intros ????????? Hrow. apply process_row_Ok in Hrow as (-> & _). lia.
  - eapply (process_files_Ok _ _ _ _ _ _ is_json 1) in Hrun as [-> _]; try done.
    + unfold products. lia.
    + intros ????????? Hrow. apply process_row_Ok in Hrow as (_ & -> & _). lia.
  - eapply (process_files_Ok _ _ _ _ _ _ is_upload 2) in Hrun as [-> _]; try done.
    + unfold products. lia.
    + intros ????????? Hrow. apply process_row_Ok in Hrow as (_ & _ & -> & _). lia.
  - eapply (process_files_Ok _ _ _ _ _ _ is_zip 1) in Hrun as [_ ->]; try done.
    intros ????????? Hrow. apply process_row_Ok in Hrow as (-> & _). lia.
Qed.

Lemma completed_run_products_witness :
  ∃ tr t',
    process_files_in_ascdict (number := Z) (λ _, None)
      [("01", "Northland Region", ()); ("99", "Area Outside Region", ())]
      (λ _, ["Total-Rainfall_500m_1991-2020_January_Northland.tif"])
      (λ _, None) (λ _ : unit, []) (λ _, date_obj_stop) None
      [("g_00_x_y_500m_monthly1", ["/data/01/g_00_x_y_500m_monthly1.asc"])]
      COMPANY_BUCKET_DATA_HUB PREFIX 0%nat
    = (tr, Ok ((), t'))
    ∧ count_events is_zip tr = 1%nat
    ∧ count_events is_json tr = 1%nat
    ∧ count_events is_upload tr = 2%nat.
Proof.
  assert (Hrun : ∃ tr t',
    process_files_in_ascdict (number := Z) (λ _, None)
      [("01", "Northland Region", ()); ("99", "Area Outside Region", ())]
      (λ _, ["Total-Rainfall_500m_1991-2020_January_Northland.tif"])
      (λ _, None) (λ _ : unit, []) (λ _, date_obj_stop) None
      [("g_00_x_y_500m_monthly1", ["/data/01/g_00_x_y_500m_monthly1.asc"])]
      COMPANY_BUCKET_DATA_HUB PREFIX 0%nat
    = (tr, Ok ((), t'))).
  { vm_compute. eexists _, _. reflexivity. }
  destruct Hrun as (tr & t' & Hrun). exists tr, t'.
  destruct (completed_run_products _ _ _ _ _ _ _ _ _ _ _ _ _ Hrun) as (Hz & Hj & Hu & _).
  split_and!; [exact Hrun|exact Hz|exact Hj|exact Hu].
Defined.
